(** * Verification of scripts/cleanup_report.py

    A shallow embedding of the cleanup report script: the collector
    ([gather_data], [read_metadata]), the URL construction
    ([make_github_url]) and the reconciler ([write_report]), followed by
    the properties of the report that are stated for it. *)

From Stdlib Require Import ZArith Strings.String Strings.Ascii
  Numbers.DecimalString Floats.SpecFloat.
From stdpp Require Import gmap strings list.

Set Warnings "-clear-no-such-hyp,-register-all".

Local Open Scope string_scope.

(** ** Python built-ins on [str]

    A [string] holds the UTF-8 bytes of the Python [str]. *)

Module Str.

(** [c.lower()] for one byte: the ASCII letters A-Z are mapped, every other
    byte is kept. The identifiers compared by the script are
    percent-encoded URLs, which are ASCII. *)
Definition lower_ascii (c : ascii) : ascii :=
  let n := nat_of_ascii c in
  if (65 <=? n)%nat && (n <=? 90)%nat then ascii_of_nat (n + 32) else c.

(** [s.lower()] *)
Fixpoint lower (s : string) : string :=
  match s with
  | "" => ""
  | String c s' => String (lower_ascii c) (lower s')
  end.

(** [s.lstrip(c)] for a single character [c] *)
Fixpoint lstrip (c : ascii) (s : string) : string :=
  match s with
  | String d s' => if Ascii.eqb d c then lstrip c s' else s
  | "" => ""
  end.

(** [s.rstrip(c)] for a single character [c] *)
Fixpoint rstrip (c : ascii) (s : string) : string :=
  match s with
  | "" => ""
  | String d s' =>
      match rstrip c s' with
      | "" => if Ascii.eqb d c then "" else String d ""
      | r => String d r
      end
  end.

(** [s.split(sep)] for a single character [sep]: one field more than
    there are separators. *)
Fixpoint split (sep : ascii) (s : string) : list string :=
  match s with
  | "" => [""]
  | String c s' =>
      if Ascii.eqb c sep then "" :: split sep s'
      else match split sep s' with
           | w :: ws => String c w :: ws
           | [] => [String c ""]
           end
  end.

(** [sep.join(l)] *)
Definition join (sep : string) (l : list string) : string :=
  String.concat sep l.

(** [s.rfind(c) + 1]: the number of characters up to and including the
    last [c], 0 when there is none. *)
Fixpoint after_last (c : ascii) (s : string) : nat :=
  match s with
  | "" => 0
  | String d s' =>
      match after_last c s' with
      | 0 => if Ascii.eqb d c then 1 else 0
      | S k => S (S k)
      end
  end.

(** [s[:i]] and [s[i:]] *)
Definition take (i : nat) (s : string) : string := String.substring 0 i s.
Definition drop (i : nat) (s : string) : string :=
  String.substring i (String.length s - i) s.

(** [s == c * len(s)] *)
Fixpoint all_char (c : ascii) (s : string) : bool :=
  match s with
  | "" => true
  | String d s' => Ascii.eqb d c && all_char c s'
  end.

(** [str(n)] for an [int] *)
Definition of_Z (n : Z) : string := NilZero.string_of_int (Z.to_int n).

End Str.

(** ** [os.path] (posixpath) *)

Module os_path.

(** [os.path.split(p)]: everything up to the last slash, trailing slashes
    stripped unless the head consists of slashes only, and the rest. *)
Definition split (p : string) : string * string :=
  let i := Str.after_last "/" p in
  let head := Str.take i p in
  let tail := Str.drop i p in
  (if negb (String.eqb head "") && negb (Str.all_char "/" head)
   then Str.rstrip "/" head else head,
   tail).

(** [os.path.splitext(p)]: the extension starts at the last dot of the
    last path component, unless only dots precede it there. *)
Definition splitext (p : string) : string * string :=
  let i := Str.after_last "/" p in
  let j := Str.after_last "." p in
  if (i <? j)%nat
     && negb (Str.all_char "." (String.substring i (j - 1 - i) p))
  then (Str.take (j - 1) p, Str.drop (j - 1) p)
  else (p, "").

(** [os.path.join(a, b)] *)
Definition join (a b : string) : string :=
  if String.prefix "/" b then b
  else if String.eqb a "" || String.eqb (Str.drop (String.length a - 1) a) "/"
       then a ++ b
       else a ++ "/" ++ b.

End os_path.

(** ** [urllib]

    The script only calls [urllib.request.pathname2url] and
    [urllib.parse.urljoin]; the reconciler is verified for any
    implementation of the two. *)

Class Urllib := {
  pathname2url : string -> string;
  urljoin : string -> string -> string
}.

(** ** Constants of the script *)

Definition METADATA_FILENAME : string := "metadata.yaml".

Definition GITHUB_URL : string :=
  "https://github.com/awsdocs/aws-doc-sdk-examples/tree/master/".

Definition EXT_LOOKUP : gmap string string :=
  list_to_map
    [("c", "C"); ("cpp", "C++"); ("cs", "C#"); ("go", "Go");
     ("html", "JavaScript"); ("java", "Java"); ("js", "JavaScript");
     ("php", "PHP"); ("py", "Python"); ("rb", "Ruby");
     ("ts", "TypeScript"); ("sh", "AWS-CLI"); ("cmd", "AWS-CLI")].

Definition IGNORE_FOLDERS : gset string :=
  list_to_set ["venv"; "scripts"; "__pycache__"; ".pytest_cache"].

(** ** Data model *)

(** One entry of an example's [files] list: a YAML mapping in which [path]
    and [services] may each be absent. *)
Record FileEntry := {
  path : option string;
  services : option (list string)
}.

(** One YAML document of a metadata file, as a dictionary: the keys the
    script reads. [metadata_path] is the key [read_metadata] adds. *)
Record Example := {
  files : option (list FileEntry);
  metadata_path : option string
}.

(** What [yaml.safe_load_all] yields while a metadata file is read: the
    documents one at a time, until the scanner rejects the text. *)
Inductive yaml_event :=
| YDoc (example_meta : Example)
| YScannerError.

(** A directory tree as [os.walk] lists it: names in listing order, a
    regular file with what a YAML load of it yields. *)
Inductive node :=
| File (name : string) (yaml : list yaml_event)
| Dir (name : string) (entries : list node).

(** What a path of the file system refers to, if anything. *)
Definition filesystem := string -> option node.

(** The messages the script prints. *)
Inductive diag :=
| FoundMetadata (file_path : string)
| YamlParserError (file_path : string)
| ReportedSecondTime (file_url metadata_path : string)
| DoesNotExist (file_url : string)
| MissingKey (key : string) (example : Example)
| ReportWritten (report_path : string).

(** The exception of a failed dictionary lookup, with the key. *)
Inductive key_error :=
| KeyError (key : string).

(** The exception [gather_data] raises. *)
Inductive file_not_found_error :=
| FileNotFoundError (msg : string).

(** How a call of [gather_data] ends. *)
Inductive result (A : Type) :=
| Return (a : A)
| Raise (e : file_not_found_error).
Arguments Return {A} a.
Arguments Raise {A} e.

(** ** Number formatting

    [f"{clean_count/total_count:.0%}"]: the quotient of two [int]s is a
    binary64 float, the [%] format multiplies it by 100 (again in
    binary64) and prints the product with no decimals, rounded half to
    even. The operations are those of [SpecFloat] at precision 53. The
    conversion of a count to a float is exact below 2^53. *)

Module Float.

Definition prec : Z := 53.
Definition emax : Z := 1024.

Definition of_nat (n : nat) : spec_float :=
  binary_normalize prec emax (Z.of_nat n) 0 false.

Definition truediv (a b : nat) : spec_float :=
  SFdiv prec emax (of_nat a) (of_nat b).

(** The integer nearest to [m * 2^e], ties to even. *)
Definition nearest_even (m : positive) (e : Z) : Z :=
  if (0 <=? e)%Z then (Z.pos m * 2 ^ e)%Z
  else
    let d := (2 ^ (- e))%Z in
    let q := (Z.pos m / d)%Z in
    let r := (Z.pos m mod d)%Z in
    match (2 * r ?= d)%Z with
    | Lt => q
    | Gt => (q + 1)%Z
    | Eq => if Z.even q then q else (q + 1)%Z
    end.

(** [format(x, ".0f")] *)
Definition format_f0 (x : spec_float) : string :=
  match x with
  | S754_zero s => if s then "-0" else "0"
  | S754_infinity s => if s then "-inf" else "inf"
  | S754_nan => "nan"
  | S754_finite s m e =>
      (if s then "-" else "") ++ Str.of_Z (nearest_even m e)
  end.

(** [format(x, ".0%")] *)
Definition format_percent0 (x : spec_float) : string :=
  format_f0 (SFmul prec emax x (of_nat 100)) ++ "%".

End Float.

(** ** The collector *)

Section Script.

Context `{Urllib}.

(** [make_github_url(folder_name, file_name)] *)
Definition make_github_url (folder_name file_name : string) : string :=
  let folder_url := pathname2url folder_name in
  let base_url := urljoin GITHUB_URL folder_url ++ "/" in
  let file_url := pathname2url file_name in
  let file_url := urljoin base_url file_url in
  file_url.

(** What the collector has gathered so far, and what it has printed. *)
Record gathered := {
  g_examples : list Example;
  g_files : list string;
  g_printed : list diag
}.

(** The loop of [read_metadata] over the documents of one metadata file:
    every document gets its [metadata_path] and is appended, until the
    scanner error, which is printed and ends the loop. *)
Fixpoint read_docs (file_path : string) (meta_docs : list yaml_event)
    (g : gathered) : gathered :=
  match meta_docs with
  | [] => g
  | YDoc example_meta :: rest =>
      let example_meta :=
        {| files := files example_meta; metadata_path := Some file_path |} in
      read_docs file_path rest
        {| g_examples := g_examples g ++ [example_meta];
           g_files := g_files g;
           g_printed := g_printed g |}
  | YScannerError :: _ =>
      {| g_examples := g_examples g;
         g_files := g_files g;
         g_printed := g_printed g ++ [YamlParserError file_path] |}
  end.

(** [read_metadata(file_path, examples)], the file holding [meta_stream] *)
Definition read_metadata (file_path : string) (meta_stream : list yaml_event)
    (g : gathered) : gathered :=
  read_docs file_path meta_stream g.

(** The body of the loop over [file_list] in [gather_data]. *)
Definition gather_file (folder_name : string) (g : gathered) (n : node)
    : gathered :=
  match n with
  | Dir _ _ => g
  | File file_name content =>
      let ext := Str.lstrip "." (snd (os_path.splitext file_name)) in
      if bool_decide (Str.lower ext ∈ dom EXT_LOOKUP) then
        let file_url := make_github_url folder_name file_name in
        {| g_examples := g_examples g;
           g_files := g_files g ++ [file_url];
           g_printed := g_printed g |}
      else if String.eqb (Str.lower file_name) METADATA_FILENAME then
        let file_path := os_path.join folder_name file_name in
        read_metadata file_path content
          {| g_examples := g_examples g;
             g_files := g_files g;
             g_printed := g_printed g ++ [FoundMetadata file_path] |}
      else g
  end.

(** [os.walk(folder_name, topdown=True)] with the loop body of
    [gather_data]: the files of a folder first, then its subfolders in
    listing order, those of [IGNORE_FOLDERS] pruned. *)
Fixpoint walk (folder_name : string) (n : node) (g : gathered) : gathered :=
  match n with
  | File _ _ => g
  | Dir _ entries =>
      let g := fold_left (gather_file folder_name) entries g in
      fold_left
        (fun g d =>
           match d with
           | Dir d_name _ =>
               if bool_decide (d_name ∈ IGNORE_FOLDERS) then g
               else walk (os_path.join folder_name d_name) d g
           | File _ _ => g
           end)
        entries g
  end.

(** [os.path.isdir(p)] *)
Definition isdir (fs : filesystem) (p : string) : bool :=
  match fs p with
  | Some (Dir _ _) => true
  | _ => false
  end.

(** [gather_data(examples_folder)] on the file system [fs] *)
Definition gather_data (fs : filesystem) (examples_folder : string)
    : result gathered :=
  if negb (isdir fs examples_folder) then
    Raise (FileNotFoundError (examples_folder ++ " is not a directory."))
  else
    let g := {| g_examples := []; g_files := []; g_printed := [] |} in
    match fs examples_folder with
    | Some top => Return (walk examples_folder top g)
    | None => Return g
    end.

End Script.

(** ** The reconciler *)

(** The local lists of [write_report], and what it has printed. *)
Record report_state := {
  lines : list string;
  clean_files : list string;
  missing_files : list string;
  bad_examples : list Example;
  printed : list diag
}.

Definition initial_state : report_state :=
  {| lines := ["File,Language,Service"]; clean_files := [];
     missing_files := []; bad_examples := []; printed := [] |}.

Definition append_line (line : string) (st : report_state) : report_state :=
  {| lines := lines st ++ [line]; clean_files := clean_files st;
     missing_files := missing_files st; bad_examples := bad_examples st;
     printed := printed st |}.

Definition append_clean (file_url : string) (st : report_state) : report_state :=
  {| lines := lines st; clean_files := clean_files st ++ [file_url];
     missing_files := missing_files st; bad_examples := bad_examples st;
     printed := printed st |}.

Definition append_missing (file_url : string) (st : report_state) : report_state :=
  {| lines := lines st; clean_files := clean_files st;
     missing_files := missing_files st ++ [file_url];
     bad_examples := bad_examples st; printed := printed st |}.

Definition append_bad (example : Example) (st : report_state) : report_state :=
  {| lines := lines st; clean_files := clean_files st;
     missing_files := missing_files st;
     bad_examples := bad_examples st ++ [example]; printed := printed st |}.

Definition print (d : diag) (st : report_state) : report_state :=
  {| lines := lines st; clean_files := clean_files st;
     missing_files := missing_files st; bad_examples := bad_examples st;
     printed := printed st ++ [d] |}.

(** What a run writes to: the standard output and the files it creates. *)
Inductive output :=
| Printed (d : diag)
| Written (text : string).

Record world := {
  stdout : list output;
  disk : gmap string string
}.

Definition nl : string := String (ascii_of_nat 10) "".

Section Reconciler.

Context `{Urllib}.

(** [{rf.lower() for rf in repo_files}] *)
Definition repo_files_lookup (repo_files : list string) : gset string :=
  list_to_set (Str.lower <$> repo_files).

(** The detail lines of one clean file: the loop over its services. *)
Definition detail_lines (file_url language : string)
    (file_services : list string) : list string :=
  (fun service => Str.join "," [file_url; language; service])
    <$> file_services.

(** The body of the loop over [example['files']]. The state returned with
    a [KeyError] holds what was appended before it was raised. *)
Definition reconcile_file (lookup : gset string) (example : Example)
    (file : FileEntry) (st : report_state)
    : report_state * option key_error :=
  match metadata_path example with
  | None => (st, Some (KeyError "metadata_path"))
  | Some mp =>
      let metadata_folder := fst (os_path.split mp) in
      match path file with
      | None => (st, Some (KeyError "path"))
      | Some file_path =>
          let file_url := make_github_url metadata_folder file_path in
          if bool_decide (Str.lower file_url ∈ lookup) then
            if bool_decide (file_url ∈ clean_files st) then
              (print (ReportedSecondTime file_url mp) st, None)
            else
              let st := append_clean file_url st in
              let ext :=
                Str.lstrip "." (snd (os_path.splitext file_url)) in
              match EXT_LOOKUP !! ext with
              | None => (st, Some (KeyError ext))
              | Some language =>
                  (fold_left (fun st line => append_line line st)
                     (detail_lines file_url language
                        (default [""] (services file)))
                     st,
                   None)
              end
          else
            (print (DoesNotExist file_url) (append_missing file_url st),
             None)
      end
  end.

(** The loop over [example['files']], left at the first exception. *)
Fixpoint reconcile_files (lookup : gset string) (example : Example)
    (fs : list FileEntry) (st : report_state)
    : report_state * option key_error :=
  match fs with
  | [] => (st, None)
  | file :: fs' =>
      match reconcile_file lookup example file st with
      | (st', None) => reconcile_files lookup example fs' st'
      | (st', Some e) => (st', Some e)
      end
  end.

(** The [try] statement for one example. *)
Definition reconcile_example (lookup : gset string) (st : report_state)
    (example : Example) : report_state :=
  let '(st', raised) :=
    match files example with
    | None => (st, Some (KeyError "files"))
    | Some fs => reconcile_files lookup example fs st
    end in
  match raised with
  | Some (KeyError key) =>
      append_bad example (print (MissingKey key example) st')
  | None => st'
  end.

(** The loop over [examples]. *)
Definition reconcile (examples : list Example) (repo_files : list string)
    : report_state :=
  fold_left (reconcile_example (repo_files_lookup repo_files))
    examples initial_state.

(** The pieces of text [write_report] writes, one per [report.write]. *)
Definition report_writes (examples : list Example)
    (repo_files : list string) (st : report_state) : list string :=
  let clean_count := length (clean_files st) in
  let total_count := length repo_files in
  let head :=
    ["Total number of examples: "
       +:+ Str.of_Z (Z.of_nat (length examples)
                     - Z.of_nat (length (bad_examples st))) +:+ "." +:+ nl;
     "Total number of cleaned files: "
       +:+ Str.of_Z (Z.of_nat clean_count) +:+ "." +:+ nl;
     "Total number of files: "
       +:+ Str.of_Z (Z.of_nat total_count) +:+ "." +:+ nl] in
  let percent :=
    if (0 <? total_count)%nat
    then ["Percent clean: "
            +:+ Float.format_percent0 (Float.truediv clean_count total_count)
            +:+ "."]
    else [] in
  let detail :=
    if (1 <? length (lines st))%nat
    then [nl; Str.join nl (lines st)]
    else [] in
  (head ++ percent ++ detail)%list.

(** The text of the report. *)
Definition report_text (examples : list Example) (repo_files : list string)
    : string :=
  String.concat ""
    (report_writes examples repo_files (reconcile examples repo_files)).

(** [open(report_path, 'w') if report_path else sys.stdout]: the path of
    the file, if the report goes to one. *)
Definition report_file (report_path : option string) : option string :=
  match report_path with
  | Some p => if String.eqb p "" then None else Some p
  | None => None
  end.

(** [write_report(examples, repo_files, report_path)] run in the world
    [w], for a destination that can be opened and written. *)
Definition write_report (examples : list Example) (repo_files : list string)
    (report_path : option string) (w : world) : world :=
  let st := reconcile examples repo_files in
  let out := (stdout w ++ (Printed <$> printed st))%list in
  let writes := report_writes examples repo_files st in
  match report_file report_path with
  | Some p =>
      {| stdout := (out ++ [Printed (ReportWritten p)])%list;
         disk := <[p := String.concat "" writes]> (disk w) |}
  | None =>
      {| stdout := (out ++ (Written <$> writes))%list; disk := disk w |}
  end.

End Reconciler.

(** ** A model of the two [urllib] functions

    [urllib.request.pathname2url] on POSIX is [urllib.parse.quote], and
    [urllib.parse.urljoin] resolves a reference against a base as in
    RFC 3986. The model of [urljoin] covers URLs without query, fragment
    and parameters: [quote] escapes the characters that start them, and
    [GITHUB_URL] has none. *)

Module urllib.

Definition is_alpha (c : ascii) : bool :=
  let n := nat_of_ascii c in
  ((65 <=? n) && (n <=? 90) || (97 <=? n) && (n <=? 122))%nat.

Definition is_digit (c : ascii) : bool :=
  let n := nat_of_ascii c in ((48 <=? n) && (n <=? 57))%nat.

(** The characters [quote] never escapes, and its default [safe='/']. *)
Definition always_safe (c : ascii) : bool :=
  is_alpha c || is_digit c
  || bool_decide (c ∈ ["_"; "."; "-"; "~"; "/"]%char).

Definition hex_digit (n : nat) : ascii :=
  if (n <? 10)%nat then ascii_of_nat (48 + n) else ascii_of_nat (55 + n).

(** [quote(s)] *)
Fixpoint quote (s : string) : string :=
  match s with
  | "" => ""
  | String c s' =>
      if always_safe c then String c (quote s')
      else
        let n := nat_of_ascii c in
        String "%" (String (hex_digit (n / 16))
                      (String (hex_digit (n mod 16)) (quote s')))
  end.

(** [s.find(c)]: the text before the first [c] and the text after it. *)
Fixpoint partition (c : ascii) (s : string) : option (string * string) :=
  match s with
  | "" => None
  | String d s' =>
      if Ascii.eqb d c then Some ("", s')
      else match partition c s' with
           | Some (a, b) => Some (String d a, b)
           | None => None
           end
  end.

Definition scheme_char (c : ascii) : bool :=
  is_alpha c || is_digit c || bool_decide (c ∈ ["+"; "-"; "."]%char).

Fixpoint forallb_string (p : ascii -> bool) (s : string) : bool :=
  match s with
  | "" => true
  | String c s' => p c && forallb_string p s'
  end.

Definition uses_relative : list string :=
  [""; "ftp"; "http"; "gopher"; "nntp"; "imap"; "wais"; "file"; "https";
   "shttp"; "mms"; "prospero"; "rtsp"; "rtspu"; "sftp"; "svn"; "svn+ssh";
   "ws"; "wss"].

Definition uses_netloc : list string :=
  [""; "ftp"; "http"; "gopher"; "nntp"; "telnet"; "imap"; "wais"; "file";
   "mms"; "https"; "shttp"; "snews"; "prospero"; "rtsp"; "rtspu"; "rsync";
   "svn"; "svn+ssh"; "sftp"; "nfs"; "git"; "git+ssh"; "ws"; "wss"].

(** [urlsplit(url, scheme)]: scheme, network location and path. *)
Definition urlsplit (url scheme : string) : string * string * string :=
  let '(scheme, url) :=
    match partition ":" url with
    | Some (String c0 s0 as pre, rest) =>
        if is_alpha c0 && forallb_string scheme_char pre
        then (Str.lower pre, rest) else (scheme, url)
    | _ => (scheme, url)
    end in
  if String.prefix "//" url then
    let after := Str.drop 2 url in
    match partition "/" after with
    | Some (netloc, rest) => (scheme, netloc, String "/" rest)
    | None => (scheme, after, "")
    end
  else (scheme, "", url).

(** [urlunsplit((scheme, netloc, url, '', ''))] *)
Definition urlunsplit (scheme netloc url : string) : string :=
  let url :=
    if negb (String.eqb netloc "")
       || (negb (String.eqb scheme "")
           && bool_decide (scheme ∈ uses_netloc)
           && negb (String.prefix "//" url))
    then "//" ++ netloc
         ++ (if negb (String.eqb url "") && negb (String.prefix "/" url)
             then "/" ++ url else url)
    else url in
  if negb (String.eqb scheme "") then scheme ++ ":" ++ url else url.

(** [segments[1:-1] = filter(None, segments[1:-1])] *)
Definition drop_inner_empty (segments : list string) : list string :=
  match segments with
  | [] => []
  | first :: rest =>
      match List.rev rest with
      | [] => [first]
      | final :: inner_rev =>
          first
            :: List.filter (fun s => negb (String.eqb s ""))
                 (List.rev inner_rev)
            ++ [final]
      end
  end.

(** The loop of [urljoin] that removes the dot segments. *)
Fixpoint resolve (segments resolved_path : list string) : list string :=
  match segments with
  | [] => resolved_path
  | seg :: rest =>
      if String.eqb seg ".." then
        resolve rest (List.removelast resolved_path)
      else if String.eqb seg "." then resolve rest resolved_path
      else resolve rest (resolved_path ++ [seg])%list
  end.

(** [urljoin(base, url)] *)
Definition urljoin (base url : string) : string :=
  if String.eqb base "" then url
  else if String.eqb url "" then base
  else
    let '(bscheme, bnetloc, bpath) := urlsplit base "" in
    let '(scheme, netloc, path) := urlsplit url bscheme in
    if negb (String.eqb scheme bscheme)
       || negb (bool_decide (scheme ∈ uses_relative))
    then url
    else if bool_decide (scheme ∈ uses_netloc)
            && negb (String.eqb netloc "")
    then urlunsplit scheme netloc path
    else
      let netloc :=
        if bool_decide (scheme ∈ uses_netloc) then bnetloc else netloc in
      if String.eqb path "" then urlunsplit scheme netloc bpath
      else
        let base_parts := Str.split "/" bpath in
        let base_parts :=
          if String.eqb (List.last base_parts "") "" then base_parts
          else List.removelast base_parts in
        let segments :=
          if String.prefix "/" path then Str.split "/" path
          else drop_inner_empty (base_parts ++ Str.split "/" path)%list in
        let resolved_path := resolve segments [] in
        let resolved_path :=
          if bool_decide (List.last segments "" ∈ ["."; ".."])
          then (resolved_path ++ [""])%list else resolved_path in
        let joined := Str.join "/" resolved_path in
        urlunsplit scheme netloc
          (if String.eqb joined "" then "/" else joined).

(** [urllib.request.pathname2url(pathname)] on POSIX *)
Definition pathname2url (pathname : string) : string := quote pathname.

End urllib.

#[export] Instance python_urllib : Urllib :=
  {| pathname2url := urllib.pathname2url; urljoin := urllib.urljoin |}.

(** ** Observations used in the statements *)

(** The header row, the first of [lines]. *)
Definition header : string := "File,Language,Service".

(** The texts among the output [out] that were written, not printed. *)
Definition written_texts (out : list output) : list string :=
  omap (fun o => match o with Written t => Some t | Printed _ => None end) out.

(** The report a run left behind, the run having taken the world from
    [before] to [after]: the content of the report file, or what the run
    wrote to the standard output. *)
Definition report_written `{Urllib} (report_path : option string)
    (before after : world) : option string :=
  match report_file report_path with
  | Some p => disk after !! p
  | None =>
      Some (String.concat ""
              (written_texts (drop (length (stdout before)) (stdout after))))
  end.

(** The state in which the reconciler starts the example that follows
    the examples [before]. *)
Definition reconcile_from `{Urllib} (lookup : gset string)
    (st : report_state) (examples : list Example) : report_state :=
  fold_left (reconcile_example lookup) examples st.

(** The identifier a file entry of an example resolves to, when both keys
    it is built from are there. *)
Definition resolved_url `{Urllib} (example : Example) (file : FileEntry)
    : option string :=
  match metadata_path example, path file with
  | Some mp, Some p => Some (make_github_url (fst (os_path.split mp)) p)
  | _, _ => None
  end.

(** The extension [write_report] looks up for an identifier. *)
Definition url_ext (file_url : string) : string :=
  Str.lstrip "." (snd (os_path.splitext file_url)).

(** What holds of the lists of [write_report] at any point of a run:
    no identifier is in [clean_files] twice, every clean identifier
    matches a collected one up to case, and every line after the header
    was joined from a clean identifier, a language and a service. *)
Definition consistent (lookup : gset string) (st : report_state) : Prop :=
  NoDup (clean_files st)
  /\ (forall f, f ∈ clean_files st -> Str.lower f ∈ lookup)
  /\ exists detail,
       lines st = header :: detail
       /\ forall line, line ∈ detail ->
            exists f language service,
              line = Str.join "," [f; language; service]
              /\ f ∈ clean_files st.

(** The lists only grow. *)
Definition extends (st st' : report_state) : Prop :=
  lines st `prefix_of` lines st'
  /\ clean_files st `prefix_of` clean_files st'
  /\ missing_files st `prefix_of` missing_files st'
  /\ bad_examples st `prefix_of` bad_examples st'.

(** An example that has its [files] key. *)
Definition has_files (example : Example) : bool :=
  match files example with Some _ => true | None => false end.

(** The file entries the loop over [example['files']] reaches, in
    order, each with the state it is reached in: the loop stops at the
    first entry that raises. *)
Fixpoint files_encounters `{Urllib} (lookup : gset string) (example : Example)
    (fs : list FileEntry) (st : report_state)
    : list (Example * FileEntry * report_state) :=
  match fs with
  | [] => []
  | file :: fs' =>
      (example, file, st)
        :: match reconcile_file lookup example file st with
           | (st', None) => files_encounters lookup example fs' st'
           | (_, Some _) => []
           end
  end.

(** The file entries a run over [examples] reaches, in order. *)
Fixpoint encounters `{Urllib} (lookup : gset string) (examples : list Example)
    (st : report_state) : list (Example * FileEntry * report_state) :=
  match examples with
  | [] => []
  | example :: rest =>
      (match files example with
       | Some fs => files_encounters lookup example fs st
       | None => []
       end
       ++ encounters lookup rest (reconcile_example lookup st example))%list
  end.

(** An entry that resolves to [u], a matching identifier. *)
Definition refers_to `{Urllib} (lookup : gset string) (u : string)
    (enc : Example * FileEntry * report_state) : Prop :=
  resolved_url enc.1.1 enc.1.2 = Some u /\ Str.lower u ∈ lookup.

(** The identifiers in [clean_files] after the entries [t] were reached
    from the state [st0]: those of [st0] and those the entries refer to. *)
Definition clean_after `{Urllib} (lookup : gset string)
    (t : list (Example * FileEntry * report_state))
    (st0 st : report_state) : Prop :=
  forall x, x ∈ clean_files st
            <-> x ∈ clean_files st0
                \/ exists enc, enc ∈ t /\ refers_to lookup x enc.

(** ** Inputs of the scenarios *)

Definition entry (p : string) (file_services : option (list string))
    : FileEntry :=
  {| path := Some p; services := file_services |}.

(** A YAML document with a [files] list, as loaded. *)
Definition document (fs : list FileEntry) : Example :=
  {| files := Some fs; metadata_path := None |}.

(** The file system in which the current folder [.] is the tree [top]. *)
Definition cwd_is (top : node) : filesystem :=
  fun p => if String.eqb p "." then Some top else None.

(** [a/metadata.yaml] declares [x.py] for s3, and [a/x.py] is there. *)
Definition one_clean_tree : node :=
  Dir "." [Dir "a" [File "metadata.yaml"
                      [YDoc (document [entry "x.py" (Some ["s3"])])];
                    File "x.py" []]].

(** The same two files, listed in the other order. *)
Definition one_clean_tree' : node :=
  Dir "." [Dir "a" [File "x.py" [];
                    File "metadata.yaml"
                      [YDoc (document [entry "x.py" (Some ["s3"])])]]].

Definition one_clean_report : string :=
  "Total number of examples: 1." +:+ nl
  +:+ "Total number of cleaned files: 1." +:+ nl
  +:+ "Total number of files: 1." +:+ nl
  +:+ "Percent clean: 100%." +:+ nl
  +:+ "File,Language,Service" +:+ nl
  +:+ "https://github.com/awsdocs/aws-doc-sdk-examples/tree/master/a/x.py,Python,s3".

(** [a/metadata.yaml] declares [x.py] under two spellings, and [a/x.py]
    is the one file there. *)
Definition two_spellings_tree : node :=
  Dir "." [Dir "a" [File "metadata.yaml"
                      [YDoc (document [entry "x.py" None; entry "X.py" None])];
                    File "x.py" []]].

Definition two_spellings_examples : list Example :=
  [{| files := Some [entry "x.py" None; entry "X.py" None];
      metadata_path := Some "./a/metadata.yaml" |}].

Definition two_spellings_repo_files : list string :=
  ["https://github.com/awsdocs/aws-doc-sdk-examples/tree/master/a/x.py"].

(** A record whose second file entry has no [path]. *)
Definition half_bad_example : Example :=
  {| files := Some [entry "x.py" (Some ["s3"]);
                    {| path := None; services := Some ["sqs"] |}];
     metadata_path := Some "./a/metadata.yaml" |}.

(** [a/x.PY] is there, and [a/metadata.yaml] declares it. *)
Definition upper_ext_tree : node :=
  Dir "." [Dir "a" [File "metadata.yaml"
                      [YDoc (document [entry "x.PY" (Some ["s3"])])];
                    File "x.PY" []]].

Definition upper_ext_url : string :=
  "https://github.com/awsdocs/aws-doc-sdk-examples/tree/master/a/x.PY".

Definition upper_ext_example : Example :=
  {| files := Some [entry "x.PY" (Some ["s3"])];
     metadata_path := Some "./a/metadata.yaml" |}.

(** The same file declared without services. *)
Definition upper_ext_no_services : Example :=
  {| files := Some [entry "x.PY" None];
     metadata_path := Some "./a/metadata.yaml" |}.

(** [x.py] declared twice in one record, with different services. *)
Definition twice_example : Example :=
  {| files := Some [entry "x.py" (Some ["s3"]); entry "x.py" (Some ["sqs"])];
     metadata_path := Some "./a/metadata.yaml" |}.

(** The state in which the second entry of [twice_example] is reached. *)
Definition twice_state : report_state :=
  {| lines :=
       ["File,Language,Service";
        "https://github.com/awsdocs/aws-doc-sdk-examples/tree/master/a/x.py,Python,s3"];
     clean_files :=
       ["https://github.com/awsdocs/aws-doc-sdk-examples/tree/master/a/x.py"];
     missing_files := []; bad_examples := []; printed := [] |}.

(** [x.py] declared twice, after a file entry that has no [path]. *)
Definition skipped_twice_example : Example :=
  {| files := Some [{| path := None; services := None |};
                    entry "x.py" (Some ["s3"]);
                    entry "x.py" (Some ["sqs"])];
     metadata_path := Some "./a/metadata.yaml" |}.

(** A record without a [files] key. *)
Definition no_files_example : Example :=
  {| files := None; metadata_path := Some "./a/metadata.yaml" |}.

(** A file system in which [.] is a regular file. *)
Definition cwd_is_file : filesystem := cwd_is (File "." []).

(** ** Further observations *)

(** A document as [read_metadata] appends it. *)
Definition with_metadata_path (file_path : string) (example_meta : Example)
    : Example :=
  {| files := files example_meta; metadata_path := Some file_path |}.

(** The extension [gather_data] tests for a file name. *)
Definition name_ext (file_name : string) : string :=
  Str.lstrip "." (snd (os_path.splitext file_name)).

(** The identifiers the printed messages report as not in the repo. *)
Definition reported_missing (ds : list diag) : list string :=
  omap (fun d => match d with DoesNotExist u => Some u | _ => None end) ds.

(** The examples the printed messages report as missing a key. *)
Definition reported_bad (ds : list diag) : list Example :=
  omap (fun d => match d with MissingKey _ e => Some e | _ => None end) ds.

(** The identifiers the printed messages report as declared again. *)
Definition reported_again (ds : list diag) : list string :=
  omap (fun d => match d with ReportedSecondTime u _ => Some u | _ => None end)
    ds.

(** A record with every key the reconciler reads, [services] apart. *)
Definition well_formed (example : Example) : Prop :=
  is_Some (metadata_path example)
  /\ exists fs, files example = Some fs
                /\ forall file, file ∈ fs -> is_Some (path file).


(** An entry whose identifier, if it matches a collected file, has an
    extension that is a key of [EXT_LOOKUP]. *)
Definition language_known `{Urllib} (lookup : gset string)
    (example : Example) (file : FileEntry) : Prop :=
  forall u, resolved_url example file = Some u -> Str.lower u ∈ lookup ->
            is_Some (EXT_LOOKUP !! url_ext u).

(** The number of identifiers a state accounts for: the clean ones, the
    ones reported as declared again, and the missing ones. *)
Definition accounted (st : report_state) : nat :=
  length (clean_files st) + length (reported_again (printed st))
  + length (missing_files st).

(** The number of entries among [t] that resolve to an identifier. *)
Fixpoint resolving `{Urllib} (t : list (Example * FileEntry * report_state))
    : nat :=
  match t with
  | [] => 0
  | enc :: t' =>
      (match resolved_url enc.1.1 enc.1.2 with Some _ => 1 | None => 0 end
       + resolving t')%nat
  end.



(** * Properties *)

Local Open Scope list_scope.

(** ** The library models on the inputs of the script *)

Example lower_url : Str.lower "https://GitHub.com/a/X.PY" = "https://github.com/a/x.py".
Proof. reflexivity. Qed.

Example split_metadata_path :
  os_path.split "./a/metadata.yaml" = ("./a", "metadata.yaml")
  /\ os_path.split "metadata.yaml" = ("", "metadata.yaml").
Proof. split; reflexivity. Qed.

Example splitext_cases :
  os_path.splitext "https://x.y/a/b.c/x.PY" = ("https://x.y/a/b.c/x", ".PY")
  /\ os_path.splitext "a/.bashrc" = ("a/.bashrc", "")
  /\ os_path.splitext "a.b/c" = ("a.b/c", "").
Proof. repeat split; reflexivity. Qed.

Example join_folder : os_path.join "." "a" = "./a" /\ os_path.join "a/" "b" = "a/b".
Proof. split; reflexivity. Qed.

Example quote_escapes : urllib.quote "sub dir/x:y.py" = "sub%20dir/x%3Ay.py".
Proof. reflexivity. Qed.

Example urljoin_cases :
  urljoin GITHUB_URL "./a" = GITHUB_URL +:+ "a"
  /\ urljoin GITHUB_URL "." = GITHUB_URL
  /\ urljoin GITHUB_URL ".."
     = "https://github.com/awsdocs/aws-doc-sdk-examples/tree/"
  /\ urljoin (GITHUB_URL +:+ "/") "x.py" = GITHUB_URL +:+ "x.py".
Proof. repeat split; vm_compute; reflexivity. Qed.

Example make_github_url_cases :
  make_github_url "./a" "x.py" = GITHUB_URL +:+ "a/x.py"
  /\ make_github_url "." "x.py" = GITHUB_URL +:+ "x.py"
  /\ make_github_url "python/example_code/sqs" "sub dir/x.py"
     = GITHUB_URL +:+ "python/example_code/sqs/sub%20dir/x.py".
Proof. repeat split; vm_compute; reflexivity. Qed.

Example percent_cases :
  Float.format_percent0 (Float.truediv 1 1) = "100%"
  /\ Float.format_percent0 (Float.truediv 1 3) = "33%"
  /\ Float.format_percent0 (Float.truediv 1 200) = "0%"
  /\ Float.format_percent0 (Float.truediv 3 200) = "2%"
  /\ Float.format_percent0 (Float.truediv 2 1) = "200%".
Proof. repeat split; vm_compute; reflexivity. Qed.

(** The scenario in which [a/x.py] is declared and is not there: no clean
    file, no detail line, one message. *)
Example missing_file_report :
  let examples := [{| files := Some [entry "x.py" (Some ["s3"])];
                      metadata_path := Some "./a/metadata.yaml" |}] in
  report_text examples []
  = "Total number of examples: 1." +:+ nl
    +:+ "Total number of cleaned files: 0." +:+ nl
    +:+ "Total number of files: 0." +:+ nl
  /\ printed (reconcile examples [])
     = [DoesNotExist (GITHUB_URL +:+ "a/x.py")].
Proof. split; vm_compute; reflexivity. Qed.

(** ** The loops of the reconciler, step by step *)

Section Steps.

Context `{Urllib}.
Implicit Types (st : report_state) (lookup : gset string).

Lemma fold_append_line (ls : list string) st :
  fold_left (fun st line => append_line line st) ls st
  = {| lines := lines st ++ ls; clean_files := clean_files st;
       missing_files := missing_files st; bad_examples := bad_examples st;
       printed := printed st |}.
Proof.
  revert st. induction ls as [|l ls IH]; intros st; simpl.
  - rewrite app_nil_r. by destruct st.
  - rewrite IH. simpl. by rewrite <- app_assoc.
Qed.

(** An entry whose identifier matches no collected file. *)
Lemma reconcile_file_missing lookup example file st u :
  resolved_url example file = Some u ->
  Str.lower u ∉ lookup ->
  reconcile_file lookup example file st
  = (print (DoesNotExist u) (append_missing u st), None).
Proof.
  unfold resolved_url, reconcile_file. intros Hu Hno.
  destruct (metadata_path example) as [mp|]; [|done].
  destruct (path file) as [p|]; [|done].
  simplify_eq. by rewrite bool_decide_eq_false_2.
Qed.

(** An entry whose identifier is in [clean_files] already. *)
Lemma reconcile_file_again lookup example file st mp u :
  metadata_path example = Some mp ->
  resolved_url example file = Some u ->
  Str.lower u ∈ lookup ->
  u ∈ clean_files st ->
  reconcile_file lookup example file st
  = (print (ReportedSecondTime u mp) st, None).
Proof.
  unfold resolved_url, reconcile_file. intros -> Hu Hin Hclean.
  destruct (path file) as [p|]; [|done].
  simplify_eq. by rewrite !bool_decide_eq_true_2.
Qed.

(** The first entry with a matching identifier whose extension has a
    language. *)
Lemma reconcile_file_first lookup example file st u language :
  resolved_url example file = Some u ->
  Str.lower u ∈ lookup ->
  u ∉ clean_files st ->
  EXT_LOOKUP !! url_ext u = Some language ->
  reconcile_file lookup example file st
  = ({| lines := lines st
                 ++ detail_lines u language (default [""] (services file));
        clean_files := clean_files st ++ [u];
        missing_files := missing_files st;
        bad_examples := bad_examples st;
        printed := printed st |}, None).
Proof.
  unfold resolved_url, reconcile_file, url_ext. intros Hu Hin Hclean Hext.
  destruct (metadata_path example) as [mp|]; [|done].
  destruct (path file) as [p|]; [|done].
  simplify_eq. rewrite bool_decide_eq_true_2 by done.
  rewrite bool_decide_eq_false_2 by done.
  rewrite Hext. by rewrite fold_append_line.
Qed.

(** The first entry with a matching identifier whose extension is not a
    key of [EXT_LOOKUP]. *)
Lemma reconcile_file_first_no_language lookup example file st u :
  resolved_url example file = Some u ->
  Str.lower u ∈ lookup ->
  u ∉ clean_files st ->
  EXT_LOOKUP !! url_ext u = None ->
  reconcile_file lookup example file st
  = (append_clean u st, Some (KeyError (url_ext u))).
Proof.
  unfold resolved_url, reconcile_file, url_ext. intros Hu Hin Hclean Hext.
  destruct (metadata_path example) as [mp|]; [|done].
  destruct (path file) as [p|]; [|done].
  simplify_eq. rewrite bool_decide_eq_true_2 by done.
  rewrite bool_decide_eq_false_2 by done.
  by rewrite Hext.
Qed.

(** An entry without [path], in a record that has its [metadata_path]. *)
Lemma reconcile_file_no_path lookup example file st :
  is_Some (metadata_path example) ->
  path file = None ->
  reconcile_file lookup example file st = (st, Some (KeyError "path")).
Proof.
  unfold reconcile_file. intros [mp ->] ->. done.
Qed.

(** The loop over the files, split at an entry it reaches. *)
Lemma reconcile_files_app lookup example fs1 fs2 st st1 :
  reconcile_files lookup example fs1 st = (st1, None) ->
  reconcile_files lookup example (fs1 ++ fs2) st
  = reconcile_files lookup example fs2 st1.
Proof.
  revert st. induction fs1 as [|f fs1 IH]; intros st; simpl.
  - by intros [= ->].
  - destruct (reconcile_file lookup example f st) as [st' [e|]]; [done|].
    apply IH.
Qed.

Lemma reconcile_from_app lookup st before after :
  reconcile_from lookup st (before ++ after)
  = reconcile_from lookup (reconcile_from lookup st before) after.
Proof. apply fold_left_app. Qed.

Lemma reconcile_unfold examples repo_files :
  reconcile examples repo_files
  = reconcile_from (repo_files_lookup repo_files) initial_state examples.
Proof. done. Qed.

End Steps.

(** ** What a run preserves *)

Section Invariants.

Context `{Urllib}.
Implicit Types (st : report_state) (lookup : gset string).

#[global] Instance extends_refl : Reflexive extends.
Proof. intros st. by repeat split. Qed.

#[global] Instance extends_trans : Transitive extends.
Proof.
  intros a b c (?&?&?&?) (?&?&?&?).
  repeat split; by etrans.
Qed.

Lemma reconcile_file_extends lookup example file st st' r :
  reconcile_file lookup example file st = (st', r) -> extends st st'.
Proof.
  unfold reconcile_file. intros Hrun.
  repeat case_match; simplify_eq; try reflexivity;
    try rewrite fold_append_line;
    repeat split; simpl; try done; by apply prefix_app_r.
Qed.

Lemma reconcile_file_consistent lookup example file st st' r :
  consistent lookup st ->
  reconcile_file lookup example file st = (st', r) ->
  consistent lookup st'.
Proof.
  intros (Hnodup & Hmatch & detail & Hlines & Hdetail).
  unfold reconcile_file. intros Hrun.
  destruct (metadata_path example) as [mp|]; [|by simplify_eq; repeat split; eauto].
  destruct (path file) as [p|]; [|by simplify_eq; repeat split; eauto].
  set (u := make_github_url (fst (os_path.split mp)) p) in *.
  case_bool_decide as Hin; [|by simplify_eq; repeat split; eauto].
  case_bool_decide as Hclean; [by simplify_eq; repeat split; eauto|].
  assert (NoDup (clean_files st ++ [u])) as Hnodup'.
  { apply NoDup_app. split_and!; [done| |apply NoDup_singleton].
    intros x Hx ->%list_elem_of_singleton. done. }
  assert (forall f, f ∈ clean_files st ++ [u] -> Str.lower f ∈ lookup)
    as Hmatch'.
  { intros f [?| ->%list_elem_of_singleton]%elem_of_app; eauto. }
  destruct (EXT_LOOKUP !! _) as [language|]; simplify_eq.
  - rewrite fold_append_line. simpl. split_and!; [done..|].
    exists (detail ++ detail_lines u language (default [""] (services file))).
    split; [by rewrite Hlines|].
    intros line [Hold|Hnew]%elem_of_app.
    + destruct (Hdetail line Hold) as (f & l & s & -> & Hf).
      exists f, l, s. split; [done|]. apply elem_of_app. by left.
    + apply list_elem_of_fmap in Hnew as (service & -> & _).
      exists u, language, service. split; [done|].
      apply elem_of_app. right. by apply list_elem_of_singleton.
  - simpl. split_and!; [done..|].
    exists detail. split; [done|].
    intros line Hold.
    destruct (Hdetail line Hold) as (f & l & s & -> & Hf).
    exists f, l, s. split; [done|]. apply elem_of_app. by left.
Qed.

Lemma reconcile_files_extends lookup example fs st st' r :
  reconcile_files lookup example fs st = (st', r) -> extends st st'.
Proof.
  revert st. induction fs as [|f fs IH]; intros st; simpl.
  - by intros [= -> _].
  - destruct (reconcile_file lookup example f st) as [st1 [e|]] eqn:Hf.
    + intros [= -> _]. by eapply reconcile_file_extends.
    + intros Hrest. etrans; [by eapply reconcile_file_extends|by apply IH].
Qed.

Lemma reconcile_files_consistent lookup example fs st st' r :
  consistent lookup st ->
  reconcile_files lookup example fs st = (st', r) ->
  consistent lookup st'.
Proof.
  revert st. induction fs as [|f fs IH]; intros st Hst; simpl.
  - by intros [= <- _].
  - destruct (reconcile_file lookup example f st) as [st1 [e|]] eqn:Hf.
    + intros [= <- _]. by eapply reconcile_file_consistent.
    + apply IH. by eapply reconcile_file_consistent.
Qed.

Lemma consistent_print lookup d st :
  consistent lookup st -> consistent lookup (print d st).
Proof. done. Qed.

Lemma consistent_append_bad lookup example st :
  consistent lookup st -> consistent lookup (append_bad example st).
Proof. done. Qed.

Lemma reconcile_example_extends lookup st example :
  extends st (reconcile_example lookup st example).
Proof.
  unfold reconcile_example.
  destruct (files example) as [fs|].
  - destruct (reconcile_files lookup example fs st) as [st' r] eqn:Hfs.
    apply reconcile_files_extends in Hfs as (?&?&?&?).
    destruct r as [[key]|]; repeat split; simpl; try done.
    by apply prefix_app_r.
  - repeat split; simpl; try done. by apply prefix_app_r.
Qed.

Lemma reconcile_example_consistent lookup st example :
  consistent lookup st -> consistent lookup (reconcile_example lookup st example).
Proof.
  intros Hst. unfold reconcile_example.
  destruct (files example) as [fs|]; [|done].
  destruct (reconcile_files lookup example fs st) as [st' r] eqn:Hfs.
  eapply reconcile_files_consistent in Hfs; [|done].
  by destruct r as [[key]|].
Qed.

Lemma reconcile_from_extends lookup st examples :
  extends st (reconcile_from lookup st examples).
Proof.
  revert st. induction examples as [|e es IH]; intros st; simpl.
  - reflexivity.
  - etrans; [apply reconcile_example_extends|apply IH].
Qed.

Lemma reconcile_from_consistent lookup st examples :
  consistent lookup st -> consistent lookup (reconcile_from lookup st examples).
Proof.
  revert st. induction examples as [|e es IH]; intros st Hst; simpl.
  - done.
  - apply IH. by apply reconcile_example_consistent.
Qed.

Lemma consistent_initial lookup : consistent lookup initial_state.
Proof.
  split_and!; simpl.
  - apply NoDup_nil_2.
  - intros f Hf. by apply elem_of_nil in Hf.
  - exists []. split; [done|]. intros line Hl. by apply elem_of_nil in Hl.
Qed.

Lemma reconcile_consistent examples repo_files :
  consistent (repo_files_lookup repo_files) (reconcile examples repo_files).
Proof. apply reconcile_from_consistent, consistent_initial. Qed.

(** The examples not counted are examples of the input. *)
Lemma reconcile_example_bad lookup st example :
  bad_examples (reconcile_example lookup st example) = bad_examples st
  \/ bad_examples (reconcile_example lookup st example)
     = bad_examples st ++ [example].
Proof.
  unfold reconcile_example.
  destruct (files example) as [fs|]; [|by right].
  destruct (reconcile_files lookup example fs st) as [st' r] eqn:Hfs.
  assert (bad_examples st' = bad_examples st) as Hbad.
  { clear -Hfs. revert st Hfs.
    induction fs as [|f fs IH]; intros st; simpl; [by intros [= <- _]|].
    destruct (reconcile_file lookup example f st) as [st1 [e|]] eqn:Hf.
    - intros [= <- _]. revert Hf. unfold reconcile_file.
      intros Hf. repeat case_match; simplify_eq; try done.
    - intros Hrest. rewrite (IH _ Hrest). revert Hf. unfold reconcile_file.
      intros Hf. repeat case_match; simplify_eq; try done.
      by rewrite fold_append_line. }
  destruct r as [[key]|]; simpl; rewrite ?Hbad; auto.
Qed.

Lemma reconcile_from_bad_length lookup st examples :
  length (bad_examples (reconcile_from lookup st examples))
  <= length (bad_examples st) + length examples.
Proof.
  revert st. induction examples as [|e es IH]; intros st; simpl; [lia|].
  etrans; [apply IH|].
  destruct (reconcile_example_bad lookup st e) as [->| ->];
    rewrite ?length_app; simpl; lia.
Qed.

End Invariants.

(** ** The entries a run reaches and what is clean *)

Section Encounters.

Context `{Urllib}.
Implicit Types (st : report_state) (lookup : gset string).
Implicit Types (t : list (Example * FileEntry * report_state)).

(** One entry: afterwards the clean identifiers are those from before and,
    when the entry resolves to a matching identifier, that one. *)
Lemma reconcile_file_clean lookup example file st st' r x :
  reconcile_file lookup example file st = (st', r) ->
  x ∈ clean_files st'
  <-> x ∈ clean_files st \/ refers_to lookup x (example, file, st).
Proof.
  unfold refers_to, resolved_url, reconcile_file. simpl. intros Hrun.
  destruct (metadata_path example) as [mp|]; [|simplify_eq; naive_solver].
  destruct (path file) as [p|]; [|simplify_eq; naive_solver].
  set (u := make_github_url (fst (os_path.split mp)) p) in *.
  case_bool_decide as Hin; [|simplify_eq; simpl; naive_solver].
  case_bool_decide as Hclean; [simplify_eq; simpl; naive_solver|].
  assert (clean_files st' = clean_files st ++ [u]) as ->.
  { destruct (EXT_LOOKUP !! _); simplify_eq; [|done].
    by rewrite fold_append_line. }
  rewrite elem_of_app, list_elem_of_singleton. naive_solver.
Qed.

Lemma clean_after_nil lookup st : clean_after lookup [] st st.
Proof.
  intros x. split; [auto|]. intros [?|(enc & Henc & _)]; [done|].
  by apply elem_of_nil in Henc.
Qed.

Lemma clean_after_cons lookup example file st0 st1 r t st :
  reconcile_file lookup example file st0 = (st1, r) ->
  clean_after lookup t st1 st ->
  clean_after lookup ((example, file, st0) :: t) st0 st.
Proof.
  intros Hstep Hrest x. rewrite (Hrest x).
  rewrite (reconcile_file_clean _ _ _ _ _ _ x Hstep).
  split.
  - intros [[?|?]|(enc & ? & ?)]; [by left|right..].
    + eexists. split; [apply list_elem_of_here|done].
    + exists enc. split; [by apply list_elem_of_further|done].
  - intros [?|(enc & [->|?]%elem_of_cons & ?)]; [by left; left|by left; right|].
    right. by exists enc.
Qed.

Lemma clean_after_app lookup t1 t2 st0 st1 st2 :
  clean_after lookup t1 st0 st1 ->
  clean_after lookup t2 st1 st2 ->
  clean_after lookup (t1 ++ t2) st0 st2.
Proof.
  intros H1 H2 x. rewrite (H2 x), (H1 x). setoid_rewrite elem_of_app.
  naive_solver.
Qed.

(** The whole loop over the files of a record. *)
Lemma files_encounters_final lookup example fs st0 st r :
  reconcile_files lookup example fs st0 = (st, r) ->
  clean_after lookup (files_encounters lookup example fs st0) st0 st.
Proof.
  revert st0. induction fs as [|f fs IH]; intros st0; simpl.
  - intros [= <- _]. apply clean_after_nil.
  - destruct (reconcile_file lookup example f st0) as [st1 [e|]] eqn:Hf.
    + intros [= <- _]. eapply clean_after_cons; [done|apply clean_after_nil].
    + intros Hrest. eapply clean_after_cons; [done|by apply IH].
Qed.

(** The loop over the files of a record, up to an entry it reaches. *)
Lemma files_encounters_split lookup example fs st0 t1 enc t2 :
  files_encounters lookup example fs st0 = t1 ++ enc :: t2 ->
  clean_after lookup t1 st0 enc.2.
Proof.
  revert st0 t1. induction fs as [|f fs IH]; intros st0 t1; simpl.
  - by destruct t1.
  - destruct t1 as [|enc1 t1]; simpl.
    + intros [= <- _]. apply clean_after_nil.
    + intros [= <- Hrest].
      destruct (reconcile_file lookup example f st0) as [st1 [e|]] eqn:Hf.
      * by destruct t1.
      * eapply clean_after_cons; [done|by eapply IH].
Qed.

Lemma reconcile_example_clean lookup st0 example :
  clean_after lookup
    (match files example with
     | Some fs => files_encounters lookup example fs st0
     | None => []
     end)
    st0 (reconcile_example lookup st0 example).
Proof.
  unfold reconcile_example. destruct (files example) as [fs|].
  - destruct (reconcile_files lookup example fs st0) as [st r] eqn:Hfs.
    apply files_encounters_final in Hfs.
    by destruct r as [[key]|].
  - intros x. simpl. split; [auto|]. intros [?|(enc & Henc & _)]; [done|].
    by apply elem_of_nil in Henc.
Qed.

(** A whole run. *)
Lemma encounters_final lookup examples st0 :
  clean_after lookup (encounters lookup examples st0) st0
    (reconcile_from lookup st0 examples).
Proof.
  revert st0. induction examples as [|e es IH]; intros st0; simpl.
  - apply clean_after_nil.
  - eapply clean_after_app; [apply reconcile_example_clean|apply IH].
Qed.

(** A run up to an entry it reaches. *)
Lemma encounters_split lookup examples st0 t1 enc t2 :
  encounters lookup examples st0 = t1 ++ enc :: t2 ->
  clean_after lookup t1 st0 enc.2.
Proof.
  revert st0 t1. induction examples as [|e es IH]; intros st0 t1; simpl.
  - by destruct t1.
  - intros [(k & Hfiles & Hrest)|(k & -> & Hrest)]%app_eq_inv.
    + destruct k as [|enc' k]; simpl in *.
      * rewrite app_nil_r in Hfiles. rewrite <- (app_nil_r t1).
        eapply clean_after_app; [|by eapply (IH _ [])].
        rewrite <- Hfiles. apply reconcile_example_clean.
      * simplify_eq. destruct (files e) as [fs|]; [|by destruct t1].
        by eapply files_encounters_split.
    + eapply clean_after_app; [apply reconcile_example_clean|].
      by eapply IH.
Qed.

End Encounters.

(** ** Clean files against collected files *)

Lemma size_list_to_set_le (l : list string) :
  size (list_to_set l : gset string) <= length l.
Proof.
  induction l as [|x l IH].
  - rewrite list_to_set_nil, size_empty. simpl. lia.
  - rewrite list_to_set_cons, size_union_alt, size_singleton. simpl.
    assert (size (list_to_set l ∖ {[x]} : gset string)
            <= size (list_to_set l : gset string)).
    { apply subseteq_size. set_solver. }
    lia.
Qed.

(** The scenario inputs of [two_spellings_examples] are what the collector
    gathers from [two_spellings_tree]. *)
Example two_spellings_gathered :
  exists g, gather_data (cwd_is two_spellings_tree) "." = Return g
            /\ g_examples g = two_spellings_examples
            /\ g_files g = two_spellings_repo_files.
Proof. eexists. split; [reflexivity|]. split; vm_compute; reflexivity. Qed.

(** C1, refuted as stated: one collected file, [a/x.py], declared as
    [x.py] and as [X.py], gives two clean identifiers for one collected
    file, and the second of them is not among the collected identifiers. *)
Lemma clean_files_can_outnumber_repo_files :
  let st := reconcile two_spellings_examples two_spellings_repo_files in
  ~ (length (clean_files st) <= length two_spellings_repo_files)
  /\ ~ (clean_files st ⊆ two_spellings_repo_files).
Proof.
  split.
  - vm_compute. lia.
  - intros Hsub.
    assert ("https://github.com/awsdocs/aws-doc-sdk-examples/tree/master/a/X.py"
            ∈ two_spellings_repo_files) as Hin.
    { apply Hsub. vm_compute. apply list_elem_of_further, list_elem_of_here. }
    apply list_elem_of_singleton in Hin. discriminate Hin.
Qed.

(** C1, amended: in every run no identifier is in [clean_files] twice, the
    lowercased clean identifiers are among the lowercased collected
    identifiers, and the clean identifiers that differ in more than case
    are at most [len(repo_files)]. *)
Theorem clean_files_within_repo_files_up_to_case `{Urllib}
    (examples : list Example) (repo_files : list string) :
  let st := reconcile examples repo_files in
  NoDup (clean_files st)
  /\ Str.lower <$> clean_files st ⊆ Str.lower <$> repo_files
  /\ size (list_to_set (Str.lower <$> clean_files st) : gset string)
     <= length repo_files.
Proof.
  intros st.
  destruct (reconcile_consistent examples repo_files) as (Hnodup & Hmatch & _).
  fold st in Hnodup, Hmatch.
  assert (forall y, y ∈ Str.lower <$> clean_files st
                    -> y ∈ Str.lower <$> repo_files) as Hsub.
  { intros y (f & -> & Hf)%list_elem_of_fmap.
    apply Hmatch in Hf. unfold repo_files_lookup in Hf.
    by apply elem_of_list_to_set in Hf. }
  split_and!; [done|done|].
  etrans; [apply subseteq_size|].
  - instantiate (1 := repo_files_lookup repo_files).
    intros y Hy%elem_of_list_to_set. apply elem_of_list_to_set. by apply Hsub.
  - unfold repo_files_lookup. etrans; [apply size_list_to_set_le|].
    by rewrite length_fmap.
Qed.

(** ** The report of the one-file scenario *)

(** C2: with [a/metadata.yaml] holding the one document
    [{files: [{path: "x.py", services: ["s3"]}]}] and [a/x.py] the one
    source file, in either listing order, the report is the four summary
    lines with counts 1, 1, 1 and 100%, the header, and the one detail
    line of [a/x.py] under the GitHub base URL, for Python and s3. *)
Theorem one_clean_file_report :
  forall top, top = one_clean_tree \/ top = one_clean_tree' ->
    exists g,
      gather_data (cwd_is top) "." = Return g
      /\ length (g_examples g) = 1
      /\ g_files g = [GITHUB_URL +:+ "a/x.py"]
      /\ report_text (g_examples g) (g_files g) = one_clean_report
      /\ lines (reconcile (g_examples g) (g_files g))
         = [header; GITHUB_URL +:+ "a/x.py,Python,s3"].
Proof.
  intros top [-> | ->]; eexists; (split; [reflexivity|]);
    repeat split; vm_compute; reflexivity.
Qed.

Lemma one_clean_file_report_witness :
  (one_clean_tree = one_clean_tree \/ one_clean_tree = one_clean_tree')
  /\ exists g,
      gather_data (cwd_is one_clean_tree) "." = Return g
      /\ length (g_examples g) = 1
      /\ g_files g = [GITHUB_URL +:+ "a/x.py"]
      /\ report_text (g_examples g) (g_files g) = one_clean_report
      /\ lines (reconcile (g_examples g) (g_files g))
         = [header; GITHUB_URL +:+ "a/x.py,Python,s3"].
Proof.
  split; [left; reflexivity|].
  apply (one_clean_file_report one_clean_tree). left. reflexivity.
Defined.

(** ** The check of the root folder *)

(** C8: when the root path is not an existing directory, [gather_data]
    raises the "is not a directory" error and gathers nothing; when it is
    a directory, [gather_data] returns what the walk gathers. *)
Theorem gather_data_checks_root `{Urllib} (fs : filesystem) (root : string) :
  (isdir fs root = false ->
     gather_data fs root
     = Raise (FileNotFoundError (root +:+ " is not a directory.")))
  /\ (isdir fs root = true ->
        exists top g,
          fs root = Some top
          /\ g = walk root top
                   {| g_examples := []; g_files := []; g_printed := [] |}
          /\ gather_data fs root = Return g).
Proof.
  unfold gather_data. split; intros Hdir; rewrite Hdir; simpl; [done|].
  unfold isdir in Hdir. destruct (fs root) as [top|]; [|done].
  by exists top, (walk root top {| g_examples := []; g_files := []; g_printed := [] |}).
Qed.

Lemma gather_data_checks_root_witness :
  (isdir cwd_is_file "." = false
   /\ gather_data cwd_is_file "."
      = Raise (FileNotFoundError ". is not a directory."))
  /\ (isdir (cwd_is one_clean_tree) "." = true
      /\ exists top g,
          cwd_is one_clean_tree "." = Some top
          /\ g = walk "." top
                   {| g_examples := []; g_files := []; g_printed := [] |}
          /\ gather_data (cwd_is one_clean_tree) "." = Return g).
Proof.
  split.
  - split; [reflexivity|].
    apply (proj1 (gather_data_checks_root cwd_is_file ".")). reflexivity.
  - split; [reflexivity|].
    apply (proj2 (gather_data_checks_root (cwd_is one_clean_tree) ".")).
    reflexivity.
Defined.

(** ** Running the reconciliation twice *)

Section Twice.

Context `{Urllib}.

Lemma written_texts_printed (ds : list diag) :
  written_texts (Printed <$> ds) = [].
Proof. induction ds as [|d ds IH]; [done|]. simpl. apply IH. Qed.

Lemma written_texts_written (ts : list string) :
  written_texts (Written <$> ts) = ts.
Proof.
  induction ts as [|t ts IH]; [done|].
  change (written_texts (Written <$> t :: ts))
    with (t :: written_texts (Written <$> ts)).
  by rewrite IH.
Qed.

Lemma written_texts_app (o1 o2 : list output) :
  written_texts (o1 ++ o2) = written_texts o1 ++ written_texts o2.
Proof. apply omap_app. Qed.

(** Whatever the world a run starts in, the report it leaves is the
    text computed from its two arguments. *)
Lemma write_report_written (examples : list Example)
    (repo_files : list string) (report_path : option string) (w : world) :
  report_written report_path w
    (write_report examples repo_files report_path w)
  = Some (report_text examples repo_files).
Proof.
  unfold report_written, write_report, report_text.
  destruct (report_file report_path) as [p|]; cbn [stdout disk].
  - by rewrite lookup_insert_eq.
  - rewrite <- !app_assoc, drop_app_length.
    by rewrite written_texts_app, written_texts_printed,
      written_texts_written.
Qed.

End Twice.

(** C9: for fixed [examples] and [repo_files], a second run of
    [write_report], started in the world the first run left (the report
    file of the first run in place, its output on the terminal), leaves
    the same report text as the first run did, byte for byte: the text is
    a function of the two arguments alone. *)
Theorem write_report_twice_same_text `{Urllib} (examples : list Example)
    (repo_files : list string) (report_path : option string) (w : world) :
  let w1 := write_report examples repo_files report_path w in
  let w2 := write_report examples repo_files report_path w1 in
  report_written report_path w1 w2 = report_written report_path w w1
  /\ report_written report_path w w1 = Some (report_text examples repo_files).
Proof.
  intros w1 w2. unfold w2, w1. by rewrite !write_report_written.
Qed.

(** ** References to one file, first and later *)

(** C3, refuted as stated: in [skipped_twice_example] the collected file
    [a/x.py] is declared by two file entries, both after an entry without
    [path]. The [KeyError] of that entry ends the loop over the record, the
    two entries are never reached, and the identifier is not in
    [clean_files] at all, where once is claimed. *)
Lemma references_after_bad_entry_never_counted :
  let u := "https://github.com/awsdocs/aws-doc-sdk-examples/tree/master/a/x.py" in
  let first := entry "x.py" (Some ["s3"]) in
  let second := entry "x.py" (Some ["sqs"]) in
  let st := reconcile [skipped_twice_example] two_spellings_repo_files in
  files skipped_twice_example
  = Some [{| path := None; services := None |}; first; second]
  /\ resolved_url skipped_twice_example first = Some u
  /\ resolved_url skipped_twice_example second = Some u
  /\ Str.lower u ∈ repo_files_lookup two_spellings_repo_files
  /\ clean_files st = []
  /\ ~ (count_occ string_dec (clean_files st) u = 1).
Proof.
  intros u first second st.
  assert (clean_files st = []) as Hclean by (vm_compute; reflexivity).
  split_and!; [reflexivity|vm_compute; reflexivity|vm_compute; reflexivity
              | |exact Hclean|].
  - apply (bool_decide_unpack _). vm_compute. exact I.
  - rewrite Hclean. simpl. discriminate.
Qed.

(** C3, amended: take any run and any file entry it reaches whose
    identifier [u] matches a collected file; the entries of a record that
    follow one that raises are not reached. Then [u] is in the final
    [clean_files] exactly once. If no entry reached earlier resolves to [u], this
    entry appends [u] and the detail lines of its own services (none when
    the extension has no language). If an entry reached earlier resolves
    to [u], this entry changes none of the lists and only prints the
    second-time message: no detail line, no recount. *)
Theorem repeated_reference_counted_once `{Urllib}
    (examples : list Example) (repo_files : list string)
    (t1 t2 : list (Example * FileEntry * report_state))
    (example : Example) (file : FileEntry) (st : report_state) (u : string) :
  let lookup := repo_files_lookup repo_files in
  encounters lookup examples initial_state = t1 ++ (example, file, st) :: t2 ->
  resolved_url example file = Some u ->
  Str.lower u ∈ lookup ->
  count_occ string_dec (clean_files (reconcile examples repo_files)) u = 1
  /\ ((forall enc, enc ∈ t1 -> resolved_url enc.1.1 enc.1.2 <> Some u) ->
      (u ∉ clean_files st)
      /\ exists st' r,
          reconcile_file lookup example file st = (st', r)
          /\ clean_files st' = clean_files st ++ [u]
          /\ lines st'
             = lines st
               ++ match EXT_LOOKUP !! url_ext u with
                  | Some language =>
                      detail_lines u language (default [""] (services file))
                  | None => []
                  end
          /\ missing_files st' = missing_files st)
  /\ ((exists enc, enc ∈ t1 /\ resolved_url enc.1.1 enc.1.2 = Some u) ->
      (u ∈ clean_files st)
      /\ exists mp,
          reconcile_file lookup example file st
          = (print (ReportedSecondTime u mp) st, None)).
Proof.
  intros lookup Henc Hu Hin.
  pose proof (encounters_split _ _ _ _ _ _ Henc) as Hmid. simpl in Hmid.
  pose proof (encounters_final lookup examples initial_state) as Hfinal.
  rewrite Henc in Hfinal.
  split_and!.
  - assert (u ∈ clean_files (reconcile examples repo_files)) as Hclean.
    { apply Hfinal. right. exists (example, file, st). split; [|done].
      apply elem_of_app. right. apply list_elem_of_here. }
    destruct (reconcile_consistent examples repo_files) as (Hnodup & _).
    apply NoDup_ListNoDup in Hnodup.
    apply (proj1 (NoDup_count_occ' string_dec _) Hnodup).
    by apply list_elem_of_In.
  - intros Hfirst.
    assert (u ∉ clean_files st) as Hnot.
    { intros [Hinit|(enc & Henc1 & Hrefers & _)]%Hmid.
      - by apply elem_of_nil in Hinit.
      - by apply (Hfirst enc). }
    split; [done|].
    destruct (EXT_LOOKUP !! url_ext u) as [language|] eqn:Hext.
    + do 2 eexists. split; [by apply reconcile_file_first|done].
    + do 2 eexists. split; [by apply reconcile_file_first_no_language|].
      simpl. by rewrite app_nil_r.
  - intros (enc & Henc1 & Hrefers).
    assert (u ∈ clean_files st) as Hclean.
    { apply Hmid. right. by exists enc. }
    split; [done|].
    destruct (metadata_path example) as [mp|] eqn:Hmp.
    + exists mp. by apply reconcile_file_again.
    + unfold resolved_url in Hu. by rewrite Hmp in Hu.
Qed.

Lemma repeated_reference_counted_once_witness :
  let lookup := repo_files_lookup two_spellings_repo_files in
  let u := "https://github.com/awsdocs/aws-doc-sdk-examples/tree/master/a/x.py" in
  let first := entry "x.py" (Some ["s3"]) in
  let second := entry "x.py" (Some ["sqs"]) in
  encounters lookup [twice_example] initial_state
  = [(twice_example, first, initial_state)]
    ++ (twice_example, second, twice_state) :: []
  /\ resolved_url twice_example second = Some u
  /\ Str.lower u ∈ lookup
  /\ count_occ string_dec
       (clean_files (reconcile [twice_example] two_spellings_repo_files)) u = 1
  /\ reconcile_file lookup twice_example second twice_state
     = (print (ReportedSecondTime u "./a/metadata.yaml") twice_state, None).
Proof.
  intros lookup u first second.
  assert (encounters lookup [twice_example] initial_state
          = [(twice_example, first, initial_state)]
            ++ (twice_example, second, twice_state) :: []) as Henc
    by (vm_compute; reflexivity).
  assert (resolved_url twice_example second = Some u) as Hu
    by (vm_compute; reflexivity).
  assert (Str.lower u ∈ lookup) as Hin
    by (apply (bool_decide_unpack _); vm_compute; exact I).
  destruct (repeated_reference_counted_once [twice_example]
              two_spellings_repo_files _ _ _ _ _ u Henc Hu Hin)
    as (Hcount & _ & Hlater).
  split_and!; [exact Henc|exact Hu|exact Hin|exact Hcount|].
  reflexivity.
Defined.

(** ** What an entry leaves stays until the end of the run *)

Section Persistence.

Context `{Urllib}.
Implicit Types (st : report_state) (lookup : gset string).



(** A record without [files] is appended to [bad_examples]; any other
    record may be. *)
Lemma reconcile_from_bad_lower lookup st examples :
  length (bad_examples st) + length examples
  <= length (bad_examples (reconcile_from lookup st examples))
     + length (List.filter has_files examples).
Proof.
  revert st. induction examples as [|e es IH]; intros st; [simpl; lia|].
  specialize (IH (reconcile_example lookup st e)).
  change (reconcile_from lookup st (e :: es))
    with (reconcile_from lookup (reconcile_example lookup st e) es).
  cbn [List.filter length].
  destruct (has_files e) eqn:Hhas; cbn [length].
  - destruct (reconcile_example_bad lookup st e) as [Hb|Hb];
      rewrite Hb in IH; rewrite ?length_app in IH; simpl in IH; lia.
  - assert (bad_examples (reconcile_example lookup st e)
            = bad_examples st ++ [e]) as Hb.
    { unfold has_files in Hhas. unfold reconcile_example.
      by destruct (files e). }
    rewrite Hb, length_app in IH. simpl in IH. lia.
Qed.

End Persistence.

(** ** Records with a missing key *)

(** C4, refuted as stated: the record [half_bad_example] has a file entry
    without [path] and is tallied in [bad_examples], yet its first entry
    is in [clean_files] and has its detail line. *)
Lemma bad_record_keeps_earlier_entries :
  let st := reconcile [half_bad_example] two_spellings_repo_files in
  (exists file, file ∈ default [] (files half_bad_example) /\ path file = None)
  /\ bad_examples st = [half_bad_example]
  /\ ~ (clean_files st = [] /\ missing_files st = [] /\ lines st = [header]).
Proof.
  split_and!.
  - exists {| path := None; services := Some ["sqs"] |}.
    split; [|done]. apply list_elem_of_further, list_elem_of_here.
  - vm_compute. reflexivity.
  - intros (Hclean & _). vm_compute in Hclean. discriminate Hclean.
Qed.

(** C4, amended: a record without [files] adds nothing to [clean_files],
    [missing_files] and [lines], is appended to [bad_examples], and the run
    goes on with the next record. A record one of whose file entries has no
    [path] is appended to [bad_examples] too and the run goes on, but it
    keeps what the entries before that one added: only that entry and the
    ones after it are skipped. *)
Theorem record_with_missing_key_is_bad `{Urllib}
    (repo_files : list string) (before after : list Example)
    (example : Example) :
  let lookup := repo_files_lookup repo_files in
  let st := reconcile_from lookup initial_state before in
  (files example = None ->
     reconcile (before ++ example :: after) repo_files
     = reconcile_from lookup
         (append_bad example (print (MissingKey "files" example) st)) after)
  /\ (forall fs1 file fs2 st1,
        files example = Some (fs1 ++ file :: fs2) ->
        is_Some (metadata_path example) ->
        path file = None ->
        reconcile_files lookup example fs1 st = (st1, None) ->
        reconcile (before ++ example :: after) repo_files
        = reconcile_from lookup
            (append_bad example (print (MissingKey "path" example) st1))
            after).
Proof.
  intros lookup st. split.
  - intros Hfiles. rewrite reconcile_unfold, reconcile_from_app. simpl.
    fold lookup. fold st. f_equal.
    unfold reconcile_example. by rewrite Hfiles.
  - intros fs1 file fs2 st1 Hfiles Hmp Hpath Hfs1.
    rewrite reconcile_unfold, reconcile_from_app. simpl.
    fold lookup. fold st. f_equal.
    unfold reconcile_example. rewrite Hfiles.
    rewrite (reconcile_files_app _ _ _ _ _ _ Hfs1). simpl.
    by rewrite reconcile_file_no_path.
Qed.

Lemma record_with_missing_key_is_bad_witness :
  let lookup := repo_files_lookup two_spellings_repo_files in
  (files no_files_example = None
   /\ reconcile ([twice_example] ++ no_files_example :: [twice_example])
        two_spellings_repo_files
      = reconcile_from lookup
          (append_bad no_files_example
             (print (MissingKey "files" no_files_example)
                (reconcile_from lookup initial_state [twice_example])))
          [twice_example])
  /\ (files half_bad_example
      = Some ([entry "x.py" (Some ["s3"])]
              ++ {| path := None; services := Some ["sqs"] |} :: [])
      /\ is_Some (metadata_path half_bad_example)
      /\ reconcile_files lookup half_bad_example [entry "x.py" (Some ["s3"])]
           initial_state = (twice_state, None)
      /\ reconcile ([] ++ half_bad_example :: []) two_spellings_repo_files
         = append_bad half_bad_example
             (print (MissingKey "path" half_bad_example) twice_state)).
Proof.
  intros lookup. split.
  - split; [reflexivity|].
    apply (proj1 (record_with_missing_key_is_bad two_spellings_repo_files
                    [twice_example] [twice_example] no_files_example)).
    reflexivity.
  - assert (reconcile_files lookup half_bad_example
              [entry "x.py" (Some ["s3"])] initial_state = (twice_state, None))
      as Hfs1 by (vm_compute; reflexivity).
    split_and!; [reflexivity|by eexists|exact Hfs1|].
    apply (proj2 (record_with_missing_key_is_bad two_spellings_repo_files
                    [] [] half_bad_example)
             [entry "x.py" (Some ["s3"])]
             {| path := None; services := Some ["sqs"] |} [] twice_state);
      [reflexivity|by eexists|reflexivity|exact Hfs1].
Defined.

(** C5: for a record without [files] anywhere among the examples, the
    [KeyError] does not leave the loop: the record goes to [bad_examples],
    the report is written, and its first line prints
    [len(examples) - len(bad_examples)], a count that is not negative and
    at most the number of records that have [files]. *)
Theorem record_without_files_not_counted `{Urllib}
    (examples : list Example) (repo_files : list string) (example : Example) :
  example ∈ examples ->
  files example = None ->
  let lookup := repo_files_lookup repo_files in
  let st := reconcile examples repo_files in
  let counted :=
    (Z.of_nat (length examples) - Z.of_nat (length (bad_examples st)))%Z in
  (forall st0, reconcile_example lookup st0 example
               = append_bad example (print (MissingKey "files" example) st0))
  /\ example ∈ bad_examples st
  /\ (0 <= counted <= Z.of_nat (length (List.filter has_files examples)))%Z
  /\ (counted < Z.of_nat (length examples))%Z
  /\ (exists rest,
        report_text examples repo_files
        = ("Total number of examples: " +:+ Str.of_Z counted +:+ "." +:+ nl)
          +:+ rest)
  /\ (forall report_path w,
        report_written report_path w
          (write_report examples repo_files report_path w)
        = Some (report_text examples repo_files)).
Proof.
  intros Hin Hfiles lookup st counted.
  assert (forall st0, reconcile_example lookup st0 example
                      = append_bad example (print (MissingKey "files" example) st0))
    as Hstep.
  { intros st0. unfold reconcile_example. by rewrite Hfiles. }
  assert (example ∈ bad_examples st) as Hbad.
  { apply list_elem_of_split in Hin as (before & after & ->).
    unfold st. rewrite reconcile_unfold, reconcile_from_app. simpl.
    fold lookup. rewrite Hstep.
    pose proof (reconcile_from_extends lookup
                  (append_bad example
                     (print (MissingKey "files" example)
                        (reconcile_from lookup initial_state before)))
                  after) as (_ & _ & _ & Hpre).
    eapply elem_of_prefix; [|exact Hpre].
    simpl. apply elem_of_app. right. apply list_elem_of_here. }
  pose proof (reconcile_from_bad_length lookup initial_state examples) as Hup.
  pose proof (reconcile_from_bad_lower lookup initial_state examples) as Hlow.
  change (reconcile_from lookup initial_state examples) with st in Hup, Hlow.
  simpl in Hup, Hlow.
  assert (0 < length (bad_examples st)) as Hpos.
  { destruct (bad_examples st); [by apply elem_of_nil in Hbad|simpl; lia]. }
  split_and!; [done|done|unfold counted; lia..| |].
  - unfold report_text, report_writes. fold st. fold counted. simpl.
    eexists. reflexivity.
  - intros report_path w. apply write_report_written.
Qed.

Lemma record_without_files_not_counted_witness :
  let examples := [twice_example; no_files_example] in
  no_files_example ∈ examples
  /\ files no_files_example = None
  /\ no_files_example ∈ bad_examples (reconcile examples two_spellings_repo_files)
  /\ exists rest,
       report_text examples two_spellings_repo_files
       = ("Total number of examples: " +:+ Str.of_Z 1 +:+ "." +:+ nl) +:+ rest.
Proof.
  intros examples.
  assert (no_files_example ∈ examples) as Hin
    by apply list_elem_of_further, list_elem_of_here.
  destruct (record_without_files_not_counted examples two_spellings_repo_files
              no_files_example Hin eq_refl) as (_ & Hbad & _ & _ & Htext & _).
  split_and!; [exact Hin|reflexivity|exact Hbad|exact Htext].
Defined.

(** ** Files that are not in the repo *)



(** ** Extensions that are not lowercase *)

(** The detail lines of a clean file whose extension has a language: one
    line with an empty service when the entry has no [services], one line
    per service otherwise. *)
Lemma detail_lines_of_first_reference `{Urllib} lookup example file st u language :
  resolved_url example file = Some u ->
  Str.lower u ∈ lookup ->
  u ∉ clean_files st ->
  EXT_LOOKUP !! url_ext u = Some language ->
  exists st',
    reconcile_file lookup example file st = (st', None)
    /\ lines st'
       = lines st
         ++ match services file with
            | None => [Str.join "," [u; language; ""]]
            | Some file_services =>
                (fun service => Str.join "," [u; language; service])
                  <$> file_services
            end.
Proof.
  intros Hu Hin Hclean Hext. eexists.
  split; [by apply reconcile_file_first|].
  simpl. by destruct (services file).
Qed.

(** C7, at the failing input: [a/x.PY] is collected and declared without
    services. It is classified clean, and no detail line is appended for
    it, where one line with an empty service is claimed: the lookup of
    its extension [PY] raises. *)
Lemma clean_file_without_detail_line :
  let st := reconcile [upper_ext_no_services] [upper_ext_url] in
  clean_files st = [upper_ext_url]
  /\ lines st = [header]
  /\ bad_examples st = [upper_ext_no_services]
  /\ printed st = [MissingKey "PY" upper_ext_no_services].
Proof. repeat split; vm_compute; reflexivity. Qed.

(** C10: [a/x.PY] is collected, its extension lowercased being [py]; for
    the metadata entry that declares it the identifier matches and is
    appended to [clean_files], the lookup of its extension [PY] in
    [EXT_LOOKUP] raises [KeyError], the record goes to [bad_examples], and
    no detail line is written for the file. *)
Theorem uppercase_extension_raises_after_clean :
  exists g,
    gather_data (cwd_is upper_ext_tree) "." = Return g
    /\ g_files g = [upper_ext_url]
    /\ g_examples g = [upper_ext_example]
    /\ url_ext upper_ext_url = "PY"
    /\ Str.lower "PY" ∈ dom EXT_LOOKUP
    /\ EXT_LOOKUP !! "PY" = None
    /\ reconcile_file (repo_files_lookup (g_files g)) upper_ext_example
         (entry "x.PY" (Some ["s3"])) initial_state
       = (append_clean upper_ext_url initial_state, Some (KeyError "PY"))
    /\ clean_files (reconcile (g_examples g) (g_files g)) = [upper_ext_url]
    /\ bad_examples (reconcile (g_examples g) (g_files g)) = [upper_ext_example]
    /\ lines (reconcile (g_examples g) (g_files g)) = [header].
Proof.
  eexists. split; [reflexivity|].
  split_and!; vm_compute; reflexivity.
Qed.

(** * Further properties of the script *)

(** ** Reading a metadata file *)

Section ReadMetadata.

Context `{Urllib}.

Lemma read_docs_documents file_path docs g :
  read_docs file_path (YDoc <$> docs) g
  = {| g_examples := g_examples g ++ (with_metadata_path file_path <$> docs);
       g_files := g_files g;
       g_printed := g_printed g |}.
Proof.
  revert g. induction docs as [|d docs IH]; intros g.
  - simpl. rewrite app_nil_r. by destruct g.
  - change (read_docs file_path (YDoc <$> d :: docs) g)
      with (read_docs file_path (YDoc <$> docs)
              {| g_examples := g_examples g ++ [with_metadata_path file_path d];
                 g_files := g_files g; g_printed := g_printed g |}).
    rewrite IH. simpl. by rewrite <- app_assoc.
Qed.

Lemma read_docs_app file_path docs rest g :
  read_docs file_path ((YDoc <$> docs) ++ rest) g
  = read_docs file_path rest (read_docs file_path (YDoc <$> docs) g).
Proof.
  revert g. induction docs as [|d docs IH]; intros g; [done|].
  simpl. apply IH.
Qed.

End ReadMetadata.

(** X1: [read_metadata] appends every document of a file that loads, each
    with the path of the file as its [metadata_path], and prints nothing;
    when the scanner fails after some documents, those documents stay
    appended, the error is printed once, and whatever follows in the file
    is not read. *)
Theorem read_metadata_keeps_documents_before_error `{Urllib}
    (file_path : string) (docs : list Example) (rest : list yaml_event)
    (g : gathered) :
  read_metadata file_path (YDoc <$> docs) g
  = {| g_examples := g_examples g ++ (with_metadata_path file_path <$> docs);
       g_files := g_files g;
       g_printed := g_printed g |}
  /\ read_metadata file_path ((YDoc <$> docs) ++ YScannerError :: rest) g
     = {| g_examples := g_examples g ++ (with_metadata_path file_path <$> docs);
          g_files := g_files g;
          g_printed := g_printed g ++ [YamlParserError file_path] |}.
Proof.
  unfold read_metadata. split; [apply read_docs_documents|].
  by rewrite read_docs_app, read_docs_documents.
Qed.

(** ** Letter case of file names *)

Lemma lower_ascii_slash c : Ascii.eqb (Str.lower_ascii c) "/" = Ascii.eqb c "/".
Proof. destruct c as [[] [] [] [] [] [] [] []]; reflexivity. Qed.

Lemma lower_ascii_dot c : Ascii.eqb (Str.lower_ascii c) "." = Ascii.eqb c ".".
Proof. destruct c as [[] [] [] [] [] [] [] []]; reflexivity. Qed.

Lemma after_last_lower d s :
  (forall c, Ascii.eqb (Str.lower_ascii c) d = Ascii.eqb c d) ->
  Str.after_last d (Str.lower s) = Str.after_last d s.
Proof.
  intros Hd. induction s as [|c s IH]; [done|].
  simpl. by rewrite IH, Hd.
Qed.

Lemma all_char_lower d s :
  (forall c, Ascii.eqb (Str.lower_ascii c) d = Ascii.eqb c d) ->
  Str.all_char d (Str.lower s) = Str.all_char d s.
Proof.
  intros Hd. induction s as [|c s IH]; [done|].
  simpl. by rewrite IH, Hd.
Qed.

Lemma length_lower s : String.length (Str.lower s) = String.length s.
Proof. induction s as [|c s IH]; [done|]. simpl. by rewrite IH. Qed.

Lemma substring_lower i n s :
  String.substring i n (Str.lower s) = Str.lower (String.substring i n s).
Proof.
  revert i n. induction s as [|c s IH]; intros i n.
  - by destruct i, n.
  - destruct i as [|i]; [destruct n as [|n]|]; simpl; [done| |apply IH].
    by rewrite IH.
Qed.

Lemma lstrip_lower d s :
  (forall c, Ascii.eqb (Str.lower_ascii c) d = Ascii.eqb c d) ->
  Str.lstrip d (Str.lower s) = Str.lower (Str.lstrip d s).
Proof.
  intros Hd. induction s as [|c s IH]; [done|].
  simpl. rewrite Hd. by destruct (Ascii.eqb c d).
Qed.

(** The extension of the lowercased name is the lowercased extension. *)
Lemma name_ext_lower file_name :
  name_ext (Str.lower file_name) = Str.lower (name_ext file_name).
Proof.
  unfold name_ext, os_path.splitext.
  rewrite !after_last_lower by (apply lower_ascii_slash || apply lower_ascii_dot).
  rewrite substring_lower, all_char_lower by apply lower_ascii_dot.
  destruct (_ && _); simpl.
  - unfold Str.drop. rewrite length_lower, substring_lower.
    apply lstrip_lower, lower_ascii_dot.
  - done.
Qed.

Lemma read_docs_files `{Urllib} file_path docs g :
  g_files (read_docs file_path docs g) = g_files g.
Proof.
  revert g. induction docs as [|[d|] docs IH]; intros g; simpl; [done| |done].
  by rewrite IH.
Qed.

(** X2: a file whose name is [metadata.yaml] in any mix of upper and lower
    case is read as a metadata file, under the path joined from its folder
    and its name as spelled, and it is not counted among the source
    files. *)
Theorem metadata_file_read_whatever_case `{Urllib}
    (folder_name file_name : string) (content : list yaml_event)
    (g : gathered) :
  Str.lower file_name = METADATA_FILENAME ->
  gather_file folder_name g (File file_name content)
  = read_metadata (os_path.join folder_name file_name) content
      {| g_examples := g_examples g;
         g_files := g_files g;
         g_printed :=
           g_printed g ++ [FoundMetadata (os_path.join folder_name file_name)] |}
  /\ g_files (gather_file folder_name g (File file_name content)) = g_files g.
Proof.
  intros Hname.
  assert (gather_file folder_name g (File file_name content)
          = read_metadata (os_path.join folder_name file_name) content
              {| g_examples := g_examples g;
                 g_files := g_files g;
                 g_printed :=
                   g_printed g
                   ++ [FoundMetadata (os_path.join folder_name file_name)] |})
    as Heq.
  { unfold gather_file. fold (name_ext file_name).
    rewrite <- name_ext_lower, Hname.
    by rewrite bool_decide_eq_false_2 by (vm_compute; discriminate). }
  split; [done|]. rewrite Heq. unfold read_metadata. by rewrite read_docs_files.
Qed.

Lemma metadata_file_read_whatever_case_witness :
  Str.lower "MetaData.YAML" = METADATA_FILENAME
  /\ g_files
       (gather_file "./a" {| g_examples := []; g_files := []; g_printed := [] |}
          (File "MetaData.YAML" [YDoc (document [entry "x.py" None])]))
     = [].
Proof.
  split; [reflexivity|].
  apply (metadata_file_read_whatever_case "./a" "MetaData.YAML"
           [YDoc (document [entry "x.py" None])]
           {| g_examples := []; g_files := []; g_printed := [] |}).
  reflexivity.
Defined.

(** ** The walk over the folders *)

Section Walk.

Context `{Urllib}.


Lemma walk_dir folder_name name entries g :
  walk folder_name (Dir name entries) g
  = fold_left
      (fun g d =>
         match d with
         | Dir d_name _ =>
             if bool_decide (d_name ∈ IGNORE_FOLDERS) then g
             else walk (os_path.join folder_name d_name) d g
         | File _ _ => g
         end)
      entries (fold_left (gather_file folder_name) entries g).
Proof. done. Qed.





End Walk.

(** X3: a folder whose name is in [IGNORE_FOLDERS] is pruned from the
    walk: with or without it in the listing, whatever it holds, the
    collector gathers the same examples and files and prints the same. *)
Theorem walk_prunes_ignored_folders `{Urllib} (folder_name name d : string)
    (before after sub : list node) (g : gathered) :
  d ∈ IGNORE_FOLDERS ->
  walk folder_name (Dir name (before ++ Dir d sub :: after)) g
  = walk folder_name (Dir name (before ++ after)) g.
Proof.
  intros Hd. rewrite !walk_dir, !fold_left_app. simpl.
  by rewrite bool_decide_eq_true_2.
Qed.

Lemma walk_prunes_ignored_folders_witness :
  "venv" ∈ IGNORE_FOLDERS
  /\ walk "." (Dir "." ([Dir "a" [File "x.py" []]]
                        ++ Dir "venv" [File "y.py" []] :: []))
       {| g_examples := []; g_files := []; g_printed := [] |}
     = walk "." (Dir "." ([Dir "a" [File "x.py" []]] ++ []))
         {| g_examples := []; g_files := []; g_printed := [] |}.
Proof.
  assert ("venv" ∈ IGNORE_FOLDERS) as Hin
    by (apply (bool_decide_unpack _); vm_compute; exact I).
  split; [exact Hin|].
  apply (walk_prunes_ignored_folders "." "." "venv"
           [Dir "a" [File "x.py" []]] [] [File "y.py" []]).
  exact Hin.
Defined.



(** ** Invariants of the lists of the reconciler *)

Section MoreInvariants.

Context `{Urllib}.
Implicit Types (st : report_state) (lookup : gset string).

(** A property of the state kept by every entry and by the handler of the
    [KeyError] is kept by a whole run. *)
Lemma reconcile_from_invariant lookup (P : report_state -> Prop) :
  (forall example file st st' r,
     P st -> reconcile_file lookup example file st = (st', r) -> P st') ->
  (forall example key st,
     P st -> P (append_bad example (print (MissingKey key example) st))) ->
  forall examples st, P st -> P (reconcile_from lookup st examples).
Proof.
  intros Hfile Hbad.
  assert (forall example fs st st' r,
            P st -> reconcile_files lookup example fs st = (st', r) -> P st')
    as Hfiles.
  { intros example fs. induction fs as [|f fs IH]; intros st st' r Hst; simpl.
    - by intros [= <- _].
    - destruct (reconcile_file lookup example f st) as [st1 [e|]] eqn:Hf.
      + intros [= <- _]. by eapply Hfile.
      + apply IH. by eapply Hfile. }
  induction examples as [|e es IH]; intros st Hst; [done|].
  simpl. apply IH. unfold reconcile_example.
  destruct (files e) as [fs|].
  - destruct (reconcile_files lookup e fs st) as [st' r] eqn:Hfs.
    pose proof (Hfiles _ _ _ _ _ Hst Hfs) as Hst'.
    destruct r as [[key]|]; [by apply Hbad|done].
  - by apply Hbad.
Qed.

Lemma reconcile_from_bad_sublist lookup st examples :
  exists bad, bad_examples (reconcile_from lookup st examples)
              = bad_examples st ++ bad
              /\ bad `sublist_of` examples.
Proof.
  revert st. induction examples as [|e es IH]; intros st.
  - exists []. simpl. by rewrite app_nil_r.
  - simpl. destruct (IH (reconcile_example lookup st e)) as (bad & -> & Hsub).
    destruct (reconcile_example_bad lookup st e) as [->| ->].
    + exists bad. split; [done|]. by apply sublist_cons.
    + exists (e :: bad). rewrite <- app_assoc. split; [done|].
      by apply sublist_skip.
Qed.

End MoreInvariants.

(** X5: the examples in [bad_examples] are examples of the input, each
    tallied at most once and in input order, so the count in the first
    line of the report is between 0 and [len(examples)]. *)
Theorem bad_examples_sublist_of_examples `{Urllib} (examples : list Example)
    (repo_files : list string) :
  let st := reconcile examples repo_files in
  bad_examples st `sublist_of` examples
  /\ (0 <= Z.of_nat (length examples) - Z.of_nat (length (bad_examples st))
      <= Z.of_nat (length examples))%Z.
Proof.
  intros st.
  destruct (reconcile_from_bad_sublist (repo_files_lookup repo_files)
              initial_state examples) as (bad & Hbad & Hsub).
  change (bad_examples st = bad) in Hbad. rewrite Hbad.
  split; [done|]. apply sublist_length in Hsub. lia.
Qed.

(** X6: every identifier in [missing_files] is, lowercased, outside the
    lookup set, so no identifier is both clean and missing. *)
Theorem missing_files_unmatched `{Urllib} (examples : list Example)
    (repo_files : list string) :
  let st := reconcile examples repo_files in
  (forall u, u ∈ missing_files st -> Str.lower u ∉ repo_files_lookup repo_files)
  /\ forall u, u ∈ clean_files st -> u ∉ missing_files st.
Proof.
  intros st.
  assert (forall u, u ∈ missing_files st
                    -> Str.lower u ∉ repo_files_lookup repo_files) as Hmissing.
  { unfold st. rewrite reconcile_unfold.
    apply (reconcile_from_invariant _
             (fun st => forall u, u ∈ missing_files st
                                  -> Str.lower u ∉ repo_files_lookup repo_files)).
    - intros example file st0 st' r Hst. unfold reconcile_file. intros Hrun.
      repeat case_match; simplify_eq; try rewrite fold_append_line;
        simpl; try done.
      intros u [Hu| ->%list_elem_of_singleton]%elem_of_app; [by apply Hst|].
      by eapply bool_decide_eq_false_1.
    - done.
    - intros u Hu. by apply elem_of_nil in Hu. }
  split; [done|].
  intros u Hclean Hmiss.
  destruct (reconcile_consistent examples repo_files) as (_ & Hmatch & _).
  by apply (Hmissing u Hmiss), Hmatch.
Qed.

(** X7: the messages tell what the lists hold: the identifiers printed as
    not in the repo are [missing_files], in order, the examples printed as
    missing a key are [bad_examples], in order, and an identifier printed
    as declared a second time is in [clean_files]. *)
Theorem printed_messages_match_lists `{Urllib} (examples : list Example)
    (repo_files : list string) :
  let st := reconcile examples repo_files in
  reported_missing (printed st) = missing_files st
  /\ reported_bad (printed st) = bad_examples st
  /\ forall u, u ∈ reported_again (printed st) -> u ∈ clean_files st.
Proof.
  intros st. unfold st. rewrite reconcile_unfold.
  apply (reconcile_from_invariant _
           (fun st => reported_missing (printed st) = missing_files st
                      /\ reported_bad (printed st) = bad_examples st
                      /\ forall u, u ∈ reported_again (printed st)
                                   -> u ∈ clean_files st)).
  - intros example file st0 st' r (Hm & Hb & Ha). unfold reconcile_file.
    intros Hrun.
    repeat case_match; simplify_eq; try rewrite fold_append_line;
      unfold reported_missing, reported_bad, reported_again in *;
      simpl; rewrite ?omap_app; simpl; rewrite ?app_nil_r;
      split_and!; try done; try (by rewrite Hm).
    + intros u [Hu| ->%list_elem_of_singleton]%elem_of_app; [by apply Ha|].
      by eapply bool_decide_eq_true_1.
    + intros u Hu. apply elem_of_app. left. by apply Ha.
    + intros u Hu. apply elem_of_app. left. by apply Ha.
  - intros example key st0 (Hm & Hb & Ha).
    unfold reported_missing, reported_bad, reported_again in *; simpl.
    rewrite !omap_app. simpl. rewrite ?app_nil_r.
    split_and!; [done|by rewrite Hb|done].
  - split_and!; [done|done|]. intros u Hu. by apply elem_of_nil in Hu.
Qed.

(** ** What the report depends on *)

(** X8: with no collected file there is no clean file and no detail line,
    whatever the examples declare, and the report is the three count
    lines alone: the percentage, a division by the number of files, is
    not written. *)
Theorem report_for_no_repo_files `{Urllib} (examples : list Example) :
  let st := reconcile examples [] in
  clean_files st = []
  /\ lines st = [header]
  /\ report_text examples []
     = ("Total number of examples: "
          +:+ Str.of_Z (Z.of_nat (length examples)
                        - Z.of_nat (length (bad_examples st))) +:+ "." +:+ nl)
       +:+ ("Total number of cleaned files: 0." +:+ nl)
       +:+ ("Total number of files: 0." +:+ nl).
Proof.
  intros st.
  destruct (reconcile_consistent examples [])
    as (_ & Hmatch & detail & Hlines & Hdetail).
  fold st in Hmatch, Hlines, Hdetail.
  assert (clean_files st = []) as Hclean.
  { destruct (clean_files st) as [|f fs]; [done|].
    specialize (Hmatch f (list_elem_of_here _ _)).
    by apply not_elem_of_empty in Hmatch. }
  assert (detail = []) as ->.
  { destruct detail as [|line detail]; [done|].
    destruct (Hdetail line (list_elem_of_here _ _)) as (f & _ & _ & _ & Hf).
    rewrite Hclean in Hf. by apply elem_of_nil in Hf. }
  split_and!; [done|done|].
  unfold report_text, report_writes. fold st. rewrite Hclean, Hlines.
  reflexivity.
Qed.

(** X9: the collected files count for the classification only as the set
    of their lowercased identifiers: two lists of collected files with the
    same lowercased identifiers, in any order and with any repetitions,
    give the same lists, and if they are equally long, the same report. *)
Theorem repo_files_matter_as_lowercased_set `{Urllib}
    (examples : list Example) (repo_files repo_files' : list string) :
  (forall x, x ∈ Str.lower <$> repo_files <-> x ∈ Str.lower <$> repo_files') ->
  reconcile examples repo_files = reconcile examples repo_files'
  /\ (length repo_files = length repo_files' ->
      report_text examples repo_files = report_text examples repo_files').
Proof.
  intros Hsame.
  assert (repo_files_lookup repo_files = repo_files_lookup repo_files') as Hlookup.
  { apply set_eq. intros x. unfold repo_files_lookup.
    by rewrite !elem_of_list_to_set. }
  assert (reconcile examples repo_files = reconcile examples repo_files') as Heq.
  { unfold reconcile. by rewrite Hlookup. }
  split; [done|]. intros Hlen.
  unfold report_text, report_writes. by rewrite Heq, Hlen.
Qed.

Lemma repo_files_matter_as_lowercased_set_witness :
  let r1 := ["https://github.com/A/x.py"; "https://github.com/a/y.py"] in
  let r2 := ["https://github.com/a/Y.py"; "https://github.com/a/x.py"] in
  (forall x, x ∈ Str.lower <$> r1 <-> x ∈ Str.lower <$> r2)
  /\ reconcile [twice_example] r1 = reconcile [twice_example] r2.
Proof.
  intros r1 r2.
  assert (forall x, x ∈ Str.lower <$> r1 <-> x ∈ Str.lower <$> r2) as Hsame.
  { intros x. change (Str.lower <$> r1)
      with ["https://github.com/a/x.py"; "https://github.com/a/y.py"].
    change (Str.lower <$> r2)
      with ["https://github.com/a/y.py"; "https://github.com/a/x.py"].
    rewrite !elem_of_cons. pose proof (elem_of_nil x). tauto. }
  split; [exact Hsame|].
  apply (repo_files_matter_as_lowercased_set [twice_example] r1 r2 Hsame).
Defined.

Section CleanFiles.

Context `{Urllib}.

Lemma files_encounters_in_input lookup example fs st enc :
  enc ∈ files_encounters lookup example fs st ->
  enc.1.1 = example /\ enc.1.2 ∈ fs.
Proof.
  revert st. induction fs as [|f fs IH]; intros st; simpl.
  - intros Henc. by apply elem_of_nil in Henc.
  - intros [->|Henc]%elem_of_cons.
    + split; [done|apply list_elem_of_here].
    + destruct (reconcile_file lookup example f st) as [st' [e|]];
        [by apply elem_of_nil in Henc|].
      destruct (IH _ Henc) as [? ?]. split; [done|].
      by apply list_elem_of_further.
Qed.

Lemma encounters_in_input lookup examples st enc :
  enc ∈ encounters lookup examples st ->
  enc.1.1 ∈ examples
  /\ exists fs, files enc.1.1 = Some fs /\ enc.1.2 ∈ fs.
Proof.
  revert st. induction examples as [|e es IH]; intros st; simpl.
  - intros Henc. by apply elem_of_nil in Henc.
  - intros [Henc|Henc]%elem_of_app.
    + destruct (files e) as [fs|] eqn:Hfiles; [|by apply elem_of_nil in Henc].
      apply files_encounters_in_input in Henc as [-> Hin].
      split; [apply list_elem_of_here|]. by exists fs.
    + destruct (IH _ Henc) as [? ?]. split; [|done].
      by apply list_elem_of_further.
Qed.

End CleanFiles.

(** X10: an identifier is in [clean_files] at the end of a run exactly
    when some file entry the run reaches resolves to it and it matches a
    collected file up to case; the entries a run reaches are file entries
    of the examples given. *)
Theorem clean_files_are_the_matched_entries `{Urllib}
    (examples : list Example) (repo_files : list string) :
  let lookup := repo_files_lookup repo_files in
  let reached := encounters lookup examples initial_state in
  (forall u, u ∈ clean_files (reconcile examples repo_files)
             <-> exists enc, enc ∈ reached /\ refers_to lookup u enc)
  /\ forall enc, enc ∈ reached ->
       enc.1.1 ∈ examples
       /\ exists fs, files enc.1.1 = Some fs /\ enc.1.2 ∈ fs.
Proof.
  intros lookup reached. split.
  - intros u.
    pose proof (encounters_final lookup examples initial_state u) as Hfinal.
    change (reconcile_from lookup initial_state examples)
      with (reconcile examples repo_files) in Hfinal.
    rewrite Hfinal. simpl.
    split; [intros [Hnil|?]; [by apply elem_of_nil in Hnil|done]|by right].
  - intros enc. apply encounters_in_input.
Qed.

(** ** Records that have all their keys *)

Section WellFormed.

Context `{Urllib}.
Implicit Types (st : report_state) (lookup : gset string).

Lemma reconcile_files_bad lookup example fs st st' r :
  reconcile_files lookup example fs st = (st', r) ->
  bad_examples st' = bad_examples st.
Proof.
  revert st. induction fs as [|f fs IH]; intros st; simpl.
  - by intros [= <- _].
  - destruct (reconcile_file lookup example f st) as [st1 [e|]] eqn:Hf.
    + intros [= <- _]. revert Hf. unfold reconcile_file. intros Hf.
      repeat case_match; by simplify_eq.
    + intros Hrest. rewrite (IH _ Hrest). revert Hf. unfold reconcile_file.
      intros Hf. repeat case_match; simplify_eq; try done.
      by rewrite fold_append_line.
Qed.

Lemma reconcile_file_classifies lookup example file st :
  is_Some (metadata_path example) ->
  is_Some (path file) ->
  language_known lookup example file ->
  exists st' u,
    reconcile_file lookup example file st = (st', None)
    /\ resolved_url example file = Some u
    /\ (u ∈ clean_files st' \/ u ∈ missing_files st').
Proof.
  intros [mp Hmp] [p Hp] Hlang.
  assert (resolved_url example file
          = Some (make_github_url (fst (os_path.split mp)) p)) as Hu.
  { unfold resolved_url. by rewrite Hmp, Hp. }
  set (u := make_github_url (fst (os_path.split mp)) p) in *.
  destruct (decide (Str.lower u ∈ lookup)) as [Hin|Hno].
  - destruct (decide (u ∈ clean_files st)) as [Hclean|Hnew].
    + do 2 eexists. split; [by eapply reconcile_file_again|].
      split; [exact Hu|]. by left.
    + destruct (Hlang u Hu Hin) as [language Hext].
      do 2 eexists. split; [by eapply reconcile_file_first|].
      split; [exact Hu|].
      left. simpl. apply elem_of_app. right. apply list_elem_of_here.
  - do 2 eexists. split; [by eapply reconcile_file_missing|].
    split; [exact Hu|].
    right. simpl. apply elem_of_app. right. apply list_elem_of_here.
Qed.

Lemma reconcile_files_classifies lookup example fs st :
  is_Some (metadata_path example) ->
  (forall file, file ∈ fs -> is_Some (path file)) ->
  (forall file, file ∈ fs -> language_known lookup example file) ->
  exists st',
    reconcile_files lookup example fs st = (st', None)
    /\ forall file u, file ∈ fs -> resolved_url example file = Some u ->
         u ∈ clean_files st' \/ u ∈ missing_files st'.
Proof.
  intros Hmp. revert st. induction fs as [|f fs IH]; intros st Hpath Hlang.
  - exists st. split; [done|]. intros file u Hfile. by apply elem_of_nil in Hfile.
  - destruct (reconcile_file_classifies lookup example f st Hmp)
      as (st1 & u1 & Hstep & Hu1 & Hclass1).
    { apply Hpath, list_elem_of_here. }
    { apply Hlang, list_elem_of_here. }
    destruct (IH st1) as (st' & Hrest & Hclass).
    { intros file Hfile. by apply Hpath, list_elem_of_further. }
    { intros file Hfile. by apply Hlang, list_elem_of_further. }
    exists st'. simpl. rewrite Hstep. split; [done|].
    intros file u [->|Hfile]%elem_of_cons Hu; [|by eapply Hclass].
    rewrite Hu1 in Hu. simplify_eq.
    apply reconcile_files_extends in Hrest as (_ & Hc & Hm & _).
    destruct Hclass1 as [?|?]; [left|right]; by eapply elem_of_prefix.
Qed.

End WellFormed.

(** X11: when every example has [files] and [metadata_path], every file
    entry has [path], and every declared file that matches a collected
    one has an extension that is a key of [EXT_LOOKUP] as spelled, no
    example is tallied bad, and every declared file ends up either in
    [clean_files] or in [missing_files]. *)
Theorem well_formed_examples_all_classified `{Urllib}
    (examples : list Example) (repo_files : list string) :
  let lookup := repo_files_lookup repo_files in
  (forall example, example ∈ examples -> well_formed example) ->
  (forall example fs file u,
     example ∈ examples -> files example = Some fs -> file ∈ fs ->
     resolved_url example file = Some u -> Str.lower u ∈ lookup ->
     is_Some (EXT_LOOKUP !! url_ext u)) ->
  let st := reconcile examples repo_files in
  bad_examples st = []
  /\ forall example fs file u,
       example ∈ examples -> files example = Some fs -> file ∈ fs ->
       resolved_url example file = Some u ->
       u ∈ clean_files st \/ u ∈ missing_files st.
Proof.
  intros lookup Hwf Hlang st. unfold st. rewrite reconcile_unfold. fold lookup.
  assert (bad_examples initial_state = []) as Hbad0 by done.
  revert Hbad0. generalize initial_state. clear st.
  induction examples as [|e es IH]; intros st0 Hbad0.
  - split; [done|]. intros example fs file u Hin. by apply elem_of_nil in Hin.
  - destruct (Hwf e (list_elem_of_here _ _)) as (Hmp & fs & Hfiles & Hpath).
    destruct (reconcile_files_classifies lookup e fs st0 Hmp Hpath)
      as (st1 & Hrun & Hclass).
    { intros file Hfile u Hu Hin.
      by apply (Hlang e fs file u (list_elem_of_here _ _)). }
    assert (reconcile_example lookup st0 e = st1) as Hex.
    { unfold reconcile_example. by rewrite Hfiles, Hrun. }
    assert (bad_examples st1 = []) as Hbad1
      by by rewrite (reconcile_files_bad _ _ _ _ _ _ Hrun).
    simpl. rewrite Hex.
    destruct (IH (fun x Hx => Hwf x (list_elem_of_further _ _ _ Hx))
                (fun x fs' f u Hx => Hlang x fs' f u (list_elem_of_further _ _ _ Hx))
                st1 Hbad1) as (Hbad & Hall).
    split; [done|].
    intros example fs' file u [->|Hin]%elem_of_cons Hfs' Hfile Hu;
      [|by eapply Hall].
    rewrite Hfiles in Hfs'. injection Hfs' as <-.
    destruct (reconcile_from_extends lookup st1 es) as (_ & Hc & Hm & _).
    destruct (Hclass file u Hfile Hu) as [?|?]; [left|right];
      by eapply elem_of_prefix.
Qed.

Lemma well_formed_examples_all_classified_witness :
  (forall example, example ∈ [twice_example] -> well_formed example)
  /\ bad_examples (reconcile [twice_example] two_spellings_repo_files) = [].
Proof.
  assert (forall example, example ∈ [twice_example] -> well_formed example)
    as Hwf.
  { intros example ->%list_elem_of_singleton. split; [by eexists|].
    eexists. split; [reflexivity|].
    intros file [->|[->|Hnil%elem_of_nil]%elem_of_cons]%elem_of_cons;
      [by eexists|by eexists|done]. }
  split; [exact Hwf|].
  apply (well_formed_examples_all_classified [twice_example]
           two_spellings_repo_files Hwf).
  intros example fs file u ->%list_elem_of_singleton [= <-] Hfile Hu _.
  apply elem_of_cons in Hfile as [->|Hfile];
    [|apply list_elem_of_singleton in Hfile as ->];
    apply (inj Some) in Hu; subst u; by eexists.
Defined.

(** ** What a run writes where *)


(** ** Every reached entry is accounted for *)

Section Accounting.

Context `{Urllib}.
Implicit Types (st : report_state) (lookup : gset string).

Lemma resolving_app (t1 t2 : list (Example * FileEntry * report_state)) :
  resolving (t1 ++ t2) = resolving t1 + resolving t2.
Proof. induction t1 as [|enc t1 IH]; [done|]. simpl. rewrite IH. lia. Qed.

Lemma reconcile_file_accounted lookup example file st st' r :
  reconcile_file lookup example file st = (st', r) ->
  accounted st'
  = accounted st
    + match resolved_url example file with Some _ => 1 | None => 0 end.
Proof.
  unfold reconcile_file, resolved_url, accounted, reported_again. intros Hrun.
  repeat case_match; simplify_eq; try rewrite fold_append_line; simpl;
    rewrite ?omap_app, ?length_app; simpl; lia.
Qed.

Lemma reconcile_files_accounted lookup example fs st st' r :
  reconcile_files lookup example fs st = (st', r) ->
  accounted st' = accounted st + resolving (files_encounters lookup example fs st).
Proof.
  revert st. induction fs as [|f fs IH]; intros st; simpl.
  - intros [= <- _]. lia.
  - destruct (reconcile_file lookup example f st) as [st1 [e|]] eqn:Hf.
    + intros [= <- _]. rewrite (reconcile_file_accounted _ _ _ _ _ _ Hf).
      simpl. lia.
    + intros Hrest. rewrite (IH _ Hrest).
      rewrite (reconcile_file_accounted _ _ _ _ _ _ Hf). lia.
Qed.

Lemma accounted_append_bad example key st :
  accounted (append_bad example (print (MissingKey key example) st))
  = accounted st.
Proof.
  unfold accounted, reported_again. simpl.
  rewrite omap_app, length_app. simpl. lia.
Qed.

Lemma reconcile_from_accounted lookup examples st :
  accounted (reconcile_from lookup st examples)
  = accounted st + resolving (encounters lookup examples st).
Proof.
  revert st. induction examples as [|e es IH]; intros st; simpl; [lia|].
  rewrite IH, resolving_app. unfold reconcile_example.
  destruct (files e) as [fs|].
  - destruct (reconcile_files lookup e fs st) as [st' r] eqn:Hfs.
    apply reconcile_files_accounted in Hfs.
    destruct r as [[key]|]; rewrite ?accounted_append_bad; lia.
  - rewrite accounted_append_bad. simpl. lia.
Qed.

End Accounting.

(** X14: every file entry a run reaches that has its [path], in a record
    that has its [metadata_path], is accounted for exactly once: the clean
    identifiers, the second-time messages and the missing identifiers
    together are as many as those entries. *)
Theorem reached_entries_accounted_once `{Urllib} (examples : list Example)
    (repo_files : list string) :
  let st := reconcile examples repo_files in
  length (clean_files st) + length (reported_again (printed st))
  + length (missing_files st)
  = resolving (encounters (repo_files_lookup repo_files) examples initial_state).
Proof.
  intros st.
  pose proof (reconcile_from_accounted (repo_files_lookup repo_files)
                examples initial_state) as Hacc.
  exact Hacc.
Qed.

(** ** The listing order of a folder *)

Section Listing.

Context `{Urllib}.





End Listing.

